(** * UUID bruteforce benchmark: coordinator, workers and their messages

    A shallow embedding of the benchmark's main script and of [worker.ts],
    with the properties of the search coordinator proved over it.

    - [Js]: the two JavaScript built-ins the code leans on, [bigint]
      serialisation ([toString] / [BigInt(string)]) and arrays written by
      index and summed by [reduce].
    - [Start], [Report]: the two message shapes crossing the thread boundary.
    - [WorkerTs]: [worker.ts], one event-loop task at a time.
    - [Main]: the main script's handlers as computations that may call
      [process.exit].
    - [System]: the main thread together with its pool of workers, driven by
      an arbitrary schedule of events.

    [UUID.v5] is a parameter (a pure function of its two arguments), and
    every source of randomness ([UUID.v4]) is a parameter giving the n-th
    value drawn.  Left out: the banner printed before the first worker is
    spawned, the wall clock (and so the elapsed time and the speed shown on
    screen), and [worker.onerror], which only logs. *)

From Stdlib Require Import ZArith String Ascii List Lia DecimalString DecimalZ.
From stdpp Require Import base option list gmap strings.

Local Open Scope string_scope.
Local Open Scope list_scope.
Local Open Scope Z_scope.

(* ===================================================================== *)
(** ** JavaScript built-ins used by the program *)
(* ===================================================================== *)

Module Js.

(** [n.toString()] on a bigint: the canonical decimal spelling, with a
    leading minus sign for negative values and no leading zeros. *)
Definition bigint_toString (n : Z) : string :=
  NilZero.string_of_int (Z.to_int n).

(** [BigInt(s)] on a string, [None] standing for the [SyntaxError] it
    throws.  The empty string is [0n]; an optional sign is followed by at
    least one decimal digit.  The spellings with surrounding white space or
    a radix prefix, which no [toString()] ever produces, are not covered
    and are rejected here. *)
Definition BigInt (s : string) : option Z :=
  match s with
  | EmptyString => Some 0
  | String "+" rest => Z.of_uint <$> NilZero.uint_of_string rest
  | _ => Z.of_int <$> NilZero.int_of_string s
  end.

(** [x++] on a [number] holding a non-negative integer: exact below 2^53,
    after which the sum rounds back to the same double. *)
Definition number_incr (x : Z) : Z :=
  if x <? 2 ^ 53 then x + 1 else x.

(** An array of bigints: its integer-named properties and its [length].
    A missing key below [length] is a hole. *)
Record array := { props : gmap Z Z; len : Z }.

(** [new Array(n).fill(v)] *)
Fixpoint fill_props (n : nat) (v : Z) : gmap Z Z :=
  match n with
  | O => ∅
  | S n' => <[Z.of_nat n' := v]> (fill_props n' v)
  end.

Definition fill (n : nat) (v : Z) : array :=
  {| props := fill_props n v; len := Z.of_nat n |}.

(** Array indices are the integers from 0 to 2^32 - 2; any other key is an
    ordinary property and does not move [length]. *)
Definition is_index (k : Z) : bool :=
  (0 <=? k) && (k <? 2 ^ 32 - 1).

(** [a[k] = v] *)
Definition set (a : array) (k v : Z) : array :=
  {| props := <[k := v]> (props a);
     len := if is_index k && (len a <=? k) then k + 1 else len a |}.

(** [a[k]] *)
Definition get (a : array) (k : Z) : option Z := props a !! k.

(** The callback [(a, b) => a + b] visits the present indices in order. *)
Definition add_present (m : gmap Z Z) (acc k : Z) : Z :=
  match m !! k with
  | Some b => acc + b
  | None => acc
  end.

(** [a.reduce((a, b) => a + b, 0n)] *)
Definition reduce_add (a : array) : Z :=
  foldl (add_present (props a)) 0 (seqZ 0 (len a)).

End Js.

(* ===================================================================== *)
(** ** Messages *)
(* ===================================================================== *)

(** Main thread to worker: [{ targetPublic, workerId }]. *)
Module Start.
Record msg := { targetPublic : string; workerId : Z }.
End Start.

(** Worker to main thread: [{ type, workerId, checked }] with, for
    ['found'], the extra property [private]. *)
Module Report.
Record msg := {
  type : string;
  workerId : Z;
  private : option string;
  checked : string
}.
End Report.

(* ===================================================================== *)
(** ** worker.ts *)
(* ===================================================================== *)

Module WorkerTs.

Definition BATCH_SIZE : Z := 100000.

(** The variables captured by one [checkBatch] closure: the destructured
    message and the two counters declared next to it. *)
Record closure := {
  targetPublic : string;
  workerId : Z;
  checked : Z;        (* bigint *)
  batchCount : Z      (* number *)
}.

(** A worker between two tasks of its event loop. *)
Record state := {
  closures : list closure;  (* one per handled message, oldest first *)
  timers : list nat;        (* pending [setTimeout(checkBatch, 0)], oldest
                               first, each naming its closure *)
  draws : N                 (* calls made to [UUID.v4] so far *)
}.

Definition idle : state := {| closures := []; timers := []; draws := 0%N |}.

Inductive batch_end :=
| Matched (candidate : string)
| Exhausted.

Inductive event :=
| Message (m : Start.msg)
| Timeout.

Section Code.
(** [UUID.v5(name, namespace)] *)
Variable v5 : string -> string -> string.
(** the n-th value returned by [UUID.v4()] in this worker *)
Variable v4 : N -> string.

(** The [for] loop of [checkBatch] with [n] iterations left to run,
    [d] draws made and the counter at [chk]. *)
Fixpoint for_loop (n : nat) (target : string) (d : N) (chk : Z)
  : batch_end * N * Z :=
  match n with
  | O => (Exhausted, d, chk)
  | S n' =>
      let candidate := v4 d in
      let publicFromCandidate := v5 candidate candidate in
      let chk' := chk + 1 in
      if String.eqb publicFromCandidate target
      then (Matched candidate, N.succ d, chk')
      else for_loop n' target (N.succ d) chk'
  end.

Definition found_msg (c : closure) (candidate : string) (chk : Z) : Report.msg :=
  {| Report.type := "found"; Report.workerId := workerId c;
     Report.private := Some candidate;
     Report.checked := Js.bigint_toString chk |}.

Definition progress_msg (c : closure) (chk : Z) : Report.msg :=
  {| Report.type := "progress"; Report.workerId := workerId c;
     Report.private := None;
     Report.checked := Js.bigint_toString chk |}.

Definition with_checked (c : closure) (chk : Z) : closure :=
  {| targetPublic := targetPublic c; workerId := workerId c;
     checked := chk; batchCount := batchCount c |}.

Definition next_batch (c : closure) (chk : Z) : closure :=
  {| targetPublic := targetPublic c; workerId := workerId c;
     checked := chk; batchCount := Js.number_incr (batchCount c) |}.

(** One call of the closure [id]'s [checkBatch]: the new state and the
    messages posted, in order. *)
Definition checkBatch (id : nat) (w : state) : state * list Report.msg :=
  match closures w !! id with
  | None => (w, [])
  | Some c =>
      match for_loop (Z.to_nat BATCH_SIZE) (targetPublic c) (draws w) (checked c) with
      | (Matched candidate, d, chk) =>
          ({| closures := <[id := with_checked c chk]> (closures w);
              timers := timers w;
              draws := d |},
           [found_msg c candidate chk])
      | (Exhausted, d, chk) =>
          ({| closures := <[id := next_batch c chk]> (closures w);
              timers := timers w ++ [id];
              draws := d |},
           [progress_msg c chk])
      end
  end.

(** [self.onmessage]: every inbound message opens a fresh closure and
    runs its first batch. *)
Definition onmessage (m : Start.msg) (w : state) : state * list Report.msg :=
  checkBatch (length (closures w))
    {| closures := closures w ++
                   [{| targetPublic := Start.targetPublic m;
                       workerId := Start.workerId m;
                       checked := 0; batchCount := 0 |}];
       timers := timers w;
       draws := draws w |}.

(** One task of the worker's event loop. *)
Definition step (e : event) (w : state) : state * list Report.msg :=
  match e with
  | Message m => onmessage m w
  | Timeout =>
      match timers w with
      | [] => (w, [])
      | id :: rest =>
          checkBatch id {| closures := closures w; timers := rest; draws := draws w |}
      end
  end.

(** A schedule of tasks, with everything posted along the way. *)
Fixpoint run (es : list event) (w : state) : state * list Report.msg :=
  match es with
  | [] => (w, [])
  | e :: es' =>
      let '(w1, out1) := step e w in
      let '(w2, out2) := run es' w1 in
      (w2, out1 ++ out2)
  end.

(** The life of a worker as the main script drives it: one start
    message, then [k] timer callbacks. *)
Definition session (m : Start.msg) (k : nat) : state * list Report.msg :=
  run (Message m :: repeat Timeout k) idle.

End Code.

End WorkerTs.

(* ===================================================================== *)
(** ** The main script *)
(* ===================================================================== *)

Module Main.

Definition PROGRESS_INTERVAL_MS : Z := 100.

(** What the script writes, one entry per [console.log] or
    [process.stdout.write] call, named after the text it carries.  Figures
    derived from the clock are not recorded. *)
Inductive output :=
| Blank
| FoundIt
| PrivateUuid (p : option string)
| Checked (n : Z)
| Stopping
| CarriageReturn
| Status (total : Z)
| FinalStatistics
| TotalChecked (n : Z)
| TotalTime
| AvgSpeed
| NotFound.

Definition is_summary (o : output) : bool :=
  match o with
  | FinalStatistics => true
  | _ => false
  end.

(** A [Worker] object held in the [workers] array. *)
Record handle := { node : nat; terminated : bool }.

(** The variables of [runBenchmark] that its callbacks close over. *)
Record state := {
  workers : list handle;
  workerProgress : Js.array;
  totalChecked : Z;
  running : bool;
  found : bool;
  progressInterval : bool;   (* the interval timer is still armed *)
  stdout : list output
}.

Definition set_workers (x : list handle) (s : state) : state :=
  {| workers := x; workerProgress := workerProgress s;
     totalChecked := totalChecked s; running := running s; found := found s;
     progressInterval := progressInterval s; stdout := stdout s |}.

Definition set_workerProgress (x : Js.array) (s : state) : state :=
  {| workers := workers s; workerProgress := x;
     totalChecked := totalChecked s; running := running s; found := found s;
     progressInterval := progressInterval s; stdout := stdout s |}.

Definition set_totalChecked (x : Z) (s : state) : state :=
  {| workers := workers s; workerProgress := workerProgress s;
     totalChecked := x; running := running s; found := found s;
     progressInterval := progressInterval s; stdout := stdout s |}.

Definition set_running (x : bool) (s : state) : state :=
  {| workers := workers s; workerProgress := workerProgress s;
     totalChecked := totalChecked s; running := x; found := found s;
     progressInterval := progressInterval s; stdout := stdout s |}.

Definition set_found (x : bool) (s : state) : state :=
  {| workers := workers s; workerProgress := workerProgress s;
     totalChecked := totalChecked s; running := running s; found := x;
     progressInterval := progressInterval s; stdout := stdout s |}.

Definition set_progressInterval (x : bool) (s : state) : state :=
  {| workers := workers s; workerProgress := workerProgress s;
     totalChecked := totalChecked s; running := running s; found := found s;
     progressInterval := x; stdout := stdout s |}.

Definition write (o : output) (s : state) : state :=
  {| workers := workers s; workerProgress := workerProgress s;
     totalChecked := totalChecked s; running := running s; found := found s;
     progressInterval := progressInterval s; stdout := stdout s ++ [o] |}.

(** *** Computations of the main thread

    A statement either returns, ends the process ([process.exit] does not
    come back) or throws; the last two skip whatever follows. *)
Inductive outcome (A : Type) :=
| Return (a : A)
| Exit (code : Z)
| Throw (error : string).
Arguments Return {A} a.
Arguments Exit {A} code.
Arguments Throw {A} error.

Definition proc (A : Type) : Type := state -> outcome A * state.

#[global] Instance proc_ret : MRet proc := fun A a s => (Return a, s).

#[global] Instance proc_bind : MBind proc := fun A B f m s =>
  match m s with
  | (Return a, s') => f a s'
  | (Exit code, s') => (Exit code, s')
  | (Throw error, s') => (Throw error, s')
  end.

Definition gets {A} (f : state -> A) : proc A := fun s => (Return (f s), s).
Definition modify (f : state -> state) : proc unit := fun s => (Return tt, f s).
Definition console_log (o : output) : proc unit := modify (write o).
Definition process_exit (code : Z) : proc unit := fun s => (Exit code, s).

Definition BigInt (str : string) : proc Z := fun s =>
  match Js.BigInt str with
  | Some v => (Return v, s)
  | None => (Throw "SyntaxError", s)
  end.

Definition terminate (h : handle) : handle :=
  {| node := node h; terminated := true |}.

(** [workerProgress.reduce((a, b) => a + b, 0n)] stored in [totalChecked] *)
Definition recompute_total : proc unit :=
  modify (fun s => set_totalChecked (Js.reduce_add (workerProgress s)) s).

(** [stopAll()] *)
Definition stopAll : proc unit :=
  modify (set_running false);;
  modify (set_progressInterval false);;
  modify (fun s => set_workers (terminate <$> workers s) s);;
  recompute_total;;
  console_log Blank;;
  console_log Blank;;
  console_log FinalStatistics;;
  total ← gets totalChecked;
  console_log (TotalChecked total);;
  console_log TotalTime;;
  console_log AvgSpeed;;
  f ← gets found;
  (if negb f then console_log NotFound else mret tt);;
  console_log Blank;;
  process_exit 0.

(** [worker.onmessage] *)
Definition onmessage (m : Report.msg) : proc unit :=
  if String.eqb (Report.type m) "progress" then
    v ← BigInt (Report.checked m);
    modify (fun s =>
      set_workerProgress (Js.set (workerProgress s) (Report.workerId m) v) s)
  else if String.eqb (Report.type m) "found" then
    modify (set_found true);;
    modify (set_running false);;
    console_log Blank;;
    console_log FoundIt;;
    console_log (PrivateUuid (Report.private m));;
    v ← BigInt (Report.checked m);
    console_log (Checked v);;
    stopAll
  else mret tt.

(** The [setInterval] callback. *)
Definition tick : proc unit :=
  r ← gets running;
  if negb r then mret tt
  else
    recompute_total;;
    console_log CarriageReturn;;
    total ← gets totalChecked;
    console_log (Status total).

(** The [SIGINT] listener. *)
Definition on_sigint : proc unit :=
  console_log Blank;;
  console_log Stopping;;
  stopAll.

(** The state [runBenchmark] leaves behind once it has spawned [n]
    workers, armed the interval and registered the listener; the output
    starts empty, after the banner. *)
Definition started (n : nat) : state :=
  {| workers := (fun i => {| node := i; terminated := false |}) <$> seq 0 n;
     workerProgress := Js.fill n 0;
     totalChecked := 0;
     running := true;
     found := false;
     progressInterval := true;
     stdout := [] |}.

(** How many closing blocks have been printed. *)
Definition summaries (s : state) : nat :=
  length (List.filter is_summary (stdout s)).

End Main.

(* ===================================================================== *)
(** ** Main thread and workers together *)
(* ===================================================================== *)

Module System.

(** One spawned worker with the two message queues that tie it to the
    main thread. *)
Record node := {
  worker : WorkerTs.state;
  inbox : list Start.msg;      (* posted by the main thread, not yet handled *)
  outbox : list Report.msg     (* posted by the worker, not yet handled *)
}.

Inductive status :=
| Live
| Exited (code : Z)
| Crashed (error : string).

Record state := {
  main : Main.state;
  process : status;
  pool : list node
}.

(** What the runtime may do next. *)
Inductive event :=
| WorkerMessage (i : nat)   (* worker [i] handles its next inbound message *)
| WorkerTimeout (i : nat)   (* worker [i] runs its oldest pending timer *)
| Deliver (i : nat)         (* the main thread handles worker [i]'s next report *)
| Interval                  (* the interval timer fires *)
| Sigint.                   (* the operator interrupts the process *)

Section Run.
Variable v5 : string -> string -> string.
(** the n-th [UUID.v4()] of worker [i] *)
Variable v4 : nat -> N -> string.
(** the main thread's own [UUID.v4()] *)
Variable targetPrivate : string.
(** [navigator.hardwareConcurrency], 0 when the host gives none *)
Variable hardwareConcurrency : nat.

Definition WORKER_COUNT : nat :=
  match hardwareConcurrency with
  | O => 8%nat
  | n => n
  end.

Definition targetPublic : string := v5 targetPrivate targetPrivate.

Definition spawn (i : nat) : node :=
  {| worker := WorkerTs.idle;
     inbox := [{| Start.targetPublic := targetPublic;
                  Start.workerId := Z.of_nat i |}];
     outbox := [] |}.

Definition init : state :=
  {| main := Main.started WORKER_COUNT;
     process := Live;
     pool := spawn <$> seq 0 WORKER_COUNT |}.

(** A worker runs while the process lives and its handle has not been
    terminated. *)
Definition can_run (s : state) (i : nat) : bool :=
  match process s, Main.workers (main s) !! i with
  | Live, Some h => negb (Main.terminated h)
  | _, _ => false
  end.

Definition set_pool (p : list node) (s : state) : state :=
  {| main := main s; process := process s; pool := p |}.

(** Run a handler of the main thread to its end. *)
Definition dispatch (h : Main.proc unit) (s : state) : state :=
  match h (main s) with
  | (Main.Return _, m') => {| main := m'; process := Live; pool := pool s |}
  | (Main.Exit code, m') => {| main := m'; process := Exited code; pool := pool s |}
  | (Main.Throw error, m') => {| main := m'; process := Crashed error; pool := pool s |}
  end.

Definition worker_task (i : nat) (nd : node) (e : WorkerTs.event)
    (rest : list Start.msg) (s : state) : state :=
  let '(w', posted) := WorkerTs.step v5 (v4 i) e (worker nd) in
  set_pool (<[i := {| worker := w'; inbox := rest;
                      outbox := outbox nd ++ posted |}]> (pool s)) s.

Definition step (s : state) (e : event) : state :=
  match process s with
  | Live =>
      match e with
      | WorkerMessage i =>
          match can_run s i, pool s !! i with
          | true, Some nd =>
              match inbox nd with
              | m :: rest => worker_task i nd (WorkerTs.Message m) rest s
              | [] => s
              end
          | _, _ => s
          end
      | WorkerTimeout i =>
          match can_run s i, pool s !! i with
          | true, Some nd => worker_task i nd WorkerTs.Timeout (inbox nd) s
          | _, _ => s
          end
      | Deliver i =>
          match can_run s i, pool s !! i with
          | true, Some nd =>
              match outbox nd with
              | m :: rest =>
                  dispatch (Main.onmessage m)
                    (set_pool (<[i := {| worker := worker nd; inbox := inbox nd;
                                         outbox := rest |}]> (pool s)) s)
              | [] => s
              end
          | _, _ => s
          end
      | Interval =>
          if Main.progressInterval (main s) then dispatch Main.tick s else s
      | Sigint => dispatch Main.on_sigint s
      end
  | _ => s
  end.

Definition run (es : list event) : state := foldl step init es.

(** The printed total of the run so far. *)
Definition table_sum (s : state) : Z :=
  Js.reduce_add (Main.workerProgress (main s)).

End Run.

End System.

(* ===================================================================== *)
(** ** Vocabulary of the statements *)
(* ===================================================================== *)

Module WorkerSpec.
Import WorkerTs.

Section Spec.
Variable v5 : string -> string -> string.
Variable v4 : N -> string.

(** None of the draws numbered [lo] to [hi - 1] derives to [t]. *)
Definition no_match (t : string) (lo hi : N) : Prop :=
  ∀ i : N, (lo ≤ i < hi)%N → v5 (v4 i) (v4 i) ≠ t.

(** The two ways a call of [checkBatch] ends on a worker whose only
    closure is [c], with [ts] pending and [d] draws behind it. *)
Inductive batch_result (c : closure) (ts : list nat) (d : N)
  : state → list Report.msg → Prop :=
| batch_found (d' : N) :
    (d < d' ≤ d + Z.to_N BATCH_SIZE)%N →
    no_match (targetPublic c) d (N.pred d') →
    v5 (v4 (N.pred d')) (v4 (N.pred d')) = targetPublic c →
    batch_result c ts d
      {| closures := [with_checked c (Z.of_N d')]; timers := ts; draws := d' |}
      [found_msg c (v4 (N.pred d')) (Z.of_N d')]
| batch_progress (d' : N) :
    d' = (d + Z.to_N BATCH_SIZE)%N →
    no_match (targetPublic c) d d' →
    batch_result c ts d
      {| closures := [next_batch c (Z.of_N d')]; timers := ts ++ [0%nat];
         draws := d' |}
      [progress_msg c (Z.of_N d')].

(** The progress reports of the first [q] batches of worker [wid]. *)
Definition progress_upto (wid : Z) (q : nat) : list Report.msg :=
  (λ j : nat,
     {| Report.type := "progress"; Report.workerId := wid;
        Report.private := None;
        Report.checked := Js.bigint_toString (Z.of_nat j * BATCH_SIZE) |})
  <$> seq 1 q.

(** Where a worker stands after its start message and [k] timer
    callbacks: still searching, or silent after a match. *)
Inductive session_result (m : Start.msg) (k : nat)
  : state → list Report.msg → Prop :=
| still_searching (c : closure) (d : N) :
    targetPublic c = Start.targetPublic m →
    workerId c = Start.workerId m →
    checked c = Z.of_N d →
    d = (N.of_nat (S k) * Z.to_N BATCH_SIZE)%N →
    no_match (Start.targetPublic m) 0 d →
    session_result m k
      {| closures := [c]; timers := [0%nat]; draws := d |}
      (progress_upto (Start.workerId m) (S k))
| has_found (c : closure) (q : nat) (d : N) :
    (q ≤ k)%nat →
    targetPublic c = Start.targetPublic m →
    workerId c = Start.workerId m →
    checked c = Z.of_N d →
    (N.of_nat q * Z.to_N BATCH_SIZE < d ≤ N.of_nat (S q) * Z.to_N BATCH_SIZE)%N →
    no_match (Start.targetPublic m) 0 (N.pred d) →
    v5 (v4 (N.pred d)) (v4 (N.pred d)) = Start.targetPublic m →
    session_result m k
      {| closures := [c]; timers := []; draws := d |}
      (progress_upto (Start.workerId m) q
       ++ [found_msg c (v4 (N.pred d)) (Z.of_N d)]).

(** The stop protocol of a cooperative worker: having received [stop]
    while it waits between two batches, the worker lets the pending timer
    callback pass without running or scheduling a batch. *)
Definition honours_stop (stop : Start.msg) (w : state) : Prop :=
  let w' := (step v5 v4 (Message stop) w).1 in
  (step v5 v4 Timeout w').2 = [] ∧
  timers (step v5 v4 Timeout w').1 = [].

End Spec.
End WorkerSpec.

Module JsSpec.

(** The elements of an array that are present, in index order, holes
    left out. *)
Definition elements (a : Js.array) : list Z :=
  omap (Js.get a) (seqZ 0 (Js.len a)).

(** The sum of a list of bigints. *)
Definition sum (l : list Z) : Z := foldr Z.add 0 l.

End JsSpec.

Module MainSpec.
Import Main.

(** The closing block printed by [stopAll]. *)
Definition summary_lines (s : state) : list output :=
  [Blank; Blank; FinalStatistics;
   TotalChecked (Js.reduce_add (workerProgress s)); TotalTime; AvgSpeed]
  ++ (if found s then [] else [NotFound]) ++ [Blank].

(** The state in which [stopAll] leaves the process. *)
Definition stopped (s : state) : state :=
  {| workers := terminate <$> workers s;
     workerProgress := workerProgress s;
     totalChecked := Js.reduce_add (workerProgress s);
     running := false;
     found := found s;
     progressInterval := false;
     stdout := stdout s ++ summary_lines s |}.

(** The state after one refresh of the status line. *)
Definition ticked (s : state) : state :=
  {| workers := workers s;
     workerProgress := workerProgress s;
     totalChecked := Js.reduce_add (workerProgress s);
     running := running s;
     found := found s;
     progressInterval := progressInterval s;
     stdout := stdout s ++
               [CarriageReturn; Status (Js.reduce_add (workerProgress s))] |}.

(** The state once a ['found'] report has been announced, before
    [stopAll] runs. *)
Definition announced (p : option string) (n : Z) (s : state) : state :=
  {| workers := workers s;
     workerProgress := workerProgress s;
     totalChecked := totalChecked s;
     running := false;
     found := true;
     progressInterval := progressInterval s;
     stdout := stdout s ++ [Blank; FoundIt; PrivateUuid p; Checked n] |}.

(** The state once the interrupt has been acknowledged, before [stopAll]
    runs. *)
Definition interrupted (s : state) : state :=
  write Stopping (write Blank s).

End MainSpec.

Module SystemSpec.
Import System.

Section Spec.
Variable v5 : string -> string -> string.
Variable v4 : nat -> N -> string.
Variable targetPrivate : string.
Variable hardwareConcurrency : nat.

Local Abbreviation TP := (targetPublic v5 targetPrivate).
Local Abbreviation COUNT := (WORKER_COUNT hardwareConcurrency).

(** A report of worker [i] carrying the count [n]. *)
Definition report_ok (i : nat) (n : Z) (r : Report.msg) : Prop :=
  Report.workerId r = Z.of_nat i ∧
  Report.checked r = Js.bigint_toString n ∧
  (Report.type r = "progress" ∨
   Report.type r = "found" ∧
   ∃ c, Report.private r = Some c ∧ v5 c c = TP).

(** The reports in flight from worker [i] carry counts that climb from
    the table's entry [lo] to the worker's own counter [hi]. *)
Fixpoint chain (i : nat) (lo : Z) (rs : list Report.msg) (hi : Z) : Prop :=
  match rs with
  | [] => lo ≤ hi
  | r :: rs' => ∃ n, lo ≤ n ∧ report_ok i n r ∧ chain i n rs' hi
  end.

(** Worker [i] and its queues against its table entry [t]. *)
Inductive node_ok (i : nat) (t : Z) : node → Prop :=
| node_fresh :
    t = 0 →
    node_ok i t (spawn v5 targetPrivate i)
| node_started (c : WorkerTs.closure) (ts : list nat) (d : N)
    (rs : list Report.msg) :
    WorkerTs.targetPublic c = TP →
    WorkerTs.workerId c = Z.of_nat i →
    WorkerTs.checked c = Z.of_N d →
    ts = [] ∨ ts = [0%nat] →
    chain i t rs (Z.of_N d) →
    node_ok i t
      {| worker := {| WorkerTs.closures := [c]; WorkerTs.timers := ts;
                      WorkerTs.draws := d |};
         inbox := []; outbox := rs |}.

Definition pool_ok (s : state) : Prop :=
  Js.len (Main.workerProgress (main s)) = Z.of_nat COUNT ∧
  length (pool s) = COUNT ∧
  ∀ (i : nat) (nd : node), pool s !! i = Some nd →
    ∃ t, Js.get (Main.workerProgress (main s)) (Z.of_nat i) = Some t ∧
         node_ok i t nd.

(** Every recovered value the script has printed derives to the
    target. *)
Definition printed_ok (s : state) : Prop :=
  ∀ p, Main.PrivateUuid p ∈ Main.stdout (main s) →
       ∃ c, p = Some c ∧ v5 c c = TP.

Definition status_ok (s : state) : Prop :=
  match process s with
  | Live =>
      Main.running (main s) = true ∧
      Main.found (main s) = false ∧
      Main.progressInterval (main s) = true ∧
      Main.workers (main s) = Main.workers (Main.started COUNT) ∧
      Main.summaries (main s) = 0%nat
  | Exited code =>
      code = 0 ∧
      Main.running (main s) = false ∧
      Main.progressInterval (main s) = false ∧
      Forall (λ h, Main.terminated h = true) (Main.workers (main s)) ∧
      Main.summaries (main s) = 1%nat
  | Crashed _ => False
  end.

Definition inv (s : state) : Prop :=
  pool_ok s ∧ printed_ok s ∧ status_ok s.

End Spec.
End SystemSpec.

(** A stand-in for [UUID.v5] and fixed streams of draws, to run the
    definitions on: worker 0 draws the secret as its 250001st candidate and
    every other draw is a decoy. *)
Module Sample.

Definition v5 (name namespace : string) : string :=
  namespace +:+ "/" +:+ name.

Definition secret : string := "s".

Definition v4 (i : nat) (n : N) : string :=
  if (Nat.eqb i 0 && (n =? 250000)%N)%bool then secret else "x".

Definition start (i : nat) : Start.msg :=
  {| Start.targetPublic := v5 secret secret; Start.workerId := Z.of_nat i |}.

(** The run of two workers in which worker 0 finds the secret in its third
    batch while worker 1 has reported one batch. *)
Definition hit : list System.event :=
  [System.WorkerMessage 0; System.WorkerMessage 1; System.Deliver 1;
   System.Interval; System.WorkerTimeout 0; System.Deliver 0; System.Deliver 0;
   System.WorkerTimeout 0; System.Deliver 0].

Definition system (es : list System.event) : System.state :=
  System.run v5 v4 secret 2 es.

End Sample.

(* ===================================================================== *)
(** ** The figures of the banner and of the status line *)
(* ===================================================================== *)

Module Estimate.

(** [a / b] on bigints: the quotient rounded towards zero, [None] standing
    for the [RangeError] thrown on a zero divisor. *)
Definition bigint_div (a b : Z) : option Z :=
  if b =? 0 then None else Some (a ÷ b).

(** [2n ** 122n] *)
Definition totalCombinations : Z := 2 ^ 122.

Section Host.
Variable hardwareConcurrency : nat.

(** [500000n * BigInt(WORKER_COUNT)] *)
Definition estimatedSpeed : Z :=
  500000 * Z.of_nat (System.WORKER_COUNT hardwareConcurrency).

(** [totalCombinations / estimatedSpeed] *)
Definition estimatedSeconds : option Z :=
  bigint_div totalCombinations estimatedSpeed.

(** [estimatedSeconds / (60n * 60n * 24n * 365n)] *)
Definition estimatedYears : option Z :=
  seconds ← estimatedSeconds;
  bigint_div seconds (60 * 60 * 24 * 365).

End Host.

(** [(totalChecked * 10000n) / totalSpace], the integer that the status
    line turns into a percentage. *)
Definition progressPct_scaled (totalChecked : Z) : option Z :=
  bigint_div (totalChecked * 10000) (2 ^ 122).

End Estimate.

(* ===================================================================== *)
(** ** Further vocabulary *)
(* ===================================================================== *)

Module WorkerSpec2.
Import WorkerTs.

(** The counters of all the closures of a worker, added up. *)
Definition sum_checked (cs : list closure) : Z :=
  foldr (λ c acc, checked c + acc) 0 cs.

(** A worker in order: every draw is counted by one closure, every pending
    timer names an open closure, and no closure has two timers pending. *)
Definition tidy (w : state) : Prop :=
  sum_checked (closures w) = Z.of_N (draws w) ∧
  NoDup (timers w) ∧
  Forall (λ id, id < length (closures w))%nat (timers w).

(** The counts carried by a list of reports read back by [BigInt], each
    above the one before. *)
Fixpoint increasing (lo : Z) (rs : list Report.msg) : Prop :=
  match rs with
  | [] => True
  | r :: rs' =>
      ∃ n, Js.BigInt (Report.checked r) = Some n ∧ lo < n ∧ increasing n rs'
  end.

(** A count that is a whole number of batches. *)
Definition whole (n : Z) : Prop :=
  ∃ a : nat, n = Z.of_nat a * BATCH_SIZE.

(** Every loop with a batch scheduled has counted whole batches so far. *)
Definition on_schedule (w : state) : Prop :=
  ∀ (id : nat) (c : closure),
    closures w !! id = Some c → id ∈ timers w → whole (checked c).

(** A progress report carries a whole number of batches. *)
Definition whole_report (r : Report.msg) : Prop :=
  Report.type r = "progress" →
  ∃ a : nat, Report.checked r = Js.bigint_toString (Z.of_nat a * BATCH_SIZE).

End WorkerSpec2.

Module SystemSpec2.
Import System.

(** The draws made by all the workers of the pool. *)
Definition total_draws (p : list node) : Z :=
  foldr (λ nd acc, Z.of_N (WorkerTs.draws (worker nd)) + acc) 0 p.

(** Worker [i] is started and runs [q] more batches, then the main thread
    handles its [q + 1] reports. *)
Definition found_schedule (i q : nat) : list event :=
  WorkerMessage i :: repeat (WorkerTimeout i) q ++ repeat (Deliver i) (S q).

(** The table after the first [k] progress reports of worker [i] have been
    handled and no other. *)
Fixpoint table_after (n i k : nat) : Js.array :=
  match k with
  | O => Js.fill n 0
  | S k' => Js.set (table_after n i k') (Z.of_nat i)
              (Z.of_nat k * WorkerTs.BATCH_SIZE)
  end.

(** The totals shown so far, on the status line or in the closing block. *)
Definition shown (n : Z) (m : Main.state) : Prop :=
  Main.Status n ∈ Main.stdout m ∨ Main.TotalChecked n ∈ Main.stdout m.

(** Everything the main thread has stored or shown, and everything on its
    way to it, is a whole number of batches. *)
Definition whole_batches (s : state) : Prop :=
  (∀ (k t : Z), Js.get (Main.workerProgress (main s)) k = Some t →
                WorkerSpec2.whole t) ∧
  (∀ n : Z, shown n (main s) → WorkerSpec2.whole n) ∧
  Forall (λ nd, WorkerSpec2.tidy (worker nd) ∧
                WorkerSpec2.on_schedule (worker nd) ∧
                Forall WorkerSpec2.whole_report (outbox nd))
    (pool s).

(** What has been printed agrees with the [found] flag: nothing about the
    outcome while the process lives, and at its end either the match or the
    not-found line, as the flag says. *)
Definition verdict_ok (s : state) : Prop :=
  match process s with
  | Live =>
      Main.found (main s) = false ∧
      (Main.FoundIt ∉ Main.stdout (main s)) ∧
      (Main.NotFound ∉ Main.stdout (main s))
  | Exited _ =>
      (Main.found (main s) = true ∧
       (Main.FoundIt ∈ Main.stdout (main s)) ∧
       (Main.NotFound ∉ Main.stdout (main s))) ∨
      (Main.found (main s) = false ∧
       (Main.FoundIt ∉ Main.stdout (main s)) ∧
       (Main.NotFound ∈ Main.stdout (main s)))
  | Crashed _ => True
  end.

End SystemSpec2.

(* ===================================================================== *)
(** ** Facts about the built-ins *)
(* ===================================================================== *)

Module JsFacts.
Import Js.

Lemma BigInt_unsigned_head (a : ascii) (rest : string) :
  a ≠ "+"%char →
  BigInt (String a rest) = Z.of_int <$> NilZero.int_of_string (String a rest).
Proof.
  destruct a as [[] [] [] [] [] [] [] []]; intros Ha;
    first [reflexivity | congruence].
Qed.

Lemma string_of_uint_head (d : Decimal.uint) :
  d ≠ Decimal.Nil →
  ∃ a rest, NilEmpty.string_of_uint d = String a rest ∧ a ≠ "+"%char.
Proof.
  destruct d; intros Hd; [congruence | ..]; simpl;
    eexists _, _; (split; [reflexivity | discriminate]).
Qed.

Lemma string_of_int_head (d : Decimal.int) :
  d ≠ Decimal.Pos Decimal.Nil →
  ∃ a rest, NilZero.string_of_int d = String a rest ∧ a ≠ "+"%char.
Proof.
  destruct d as [u | u]; intros Hd; simpl.
  - unfold NilZero.string_of_uint.
    destruct u; [congruence | ..];
      eexists _, _; (split; [reflexivity | discriminate]).
  - eexists _, _; split; [reflexivity | discriminate].
Qed.

Lemma to_int_proper (n : Z) :
  Z.to_int n ≠ Decimal.Pos Decimal.Nil ∧ Z.to_int n ≠ Decimal.Neg Decimal.Nil.
Proof.
  destruct n as [| p | p]; simpl; split; try discriminate;
    intros H; injection H; apply DecimalPos.Unsigned.to_uint_nonnil.
Qed.

(** Text produced by [toString] is read back by [BigInt] as the same
    integer, whatever its size. *)
Lemma BigInt_toString (n : Z) : BigInt (bigint_toString n) = Some n.
Proof.
  unfold bigint_toString.
  destruct (to_int_proper n) as [Hp Hn].
  destruct (string_of_int_head _ Hp) as (a & rest & Hs & Ha).
  pose proof (NilZero.isi _ Hp Hn) as Hisi.
  rewrite Hs in Hisi |- *.
  rewrite (BigInt_unsigned_head _ _ Ha), Hisi. simpl.
  f_equal. apply DecimalZ.of_to.
Qed.

Lemma bigint_toString_inj (n n' : Z) :
  bigint_toString n = bigint_toString n' → n = n'.
Proof.
  intros H. pose proof (BigInt_toString n) as H1.
  rewrite H, BigInt_toString in H1. congruence.
Qed.

Lemma fill_props_lookup (n : nat) (v k : Z) :
  fill_props n v !! k = if decide (0 ≤ k < Z.of_nat n) then Some v else None.
Proof.
  induction n as [| n IH]; simpl.
  - rewrite lookup_empty. case_decide; [lia | done].
  - rewrite lookup_insert, IH. repeat case_decide; try done; lia.
Qed.

Lemma foldl_add_present_shift (m : gmap Z Z) (ks : list Z) (acc : Z) :
  foldl (add_present m) acc ks = acc + foldl (add_present m) 0 ks.
Proof.
  revert acc. induction ks as [| k ks IH]; intros acc; simpl; [lia |].
  rewrite (IH (add_present m acc k)), (IH (add_present m 0 k)).
  unfold add_present. destruct (m !! k); lia.
Qed.

Lemma foldl_add_present_insert_notin (m : gmap Z Z) k v (ks : list Z) acc :
  k ∉ ks →
  foldl (add_present (<[k := v]> m)) acc ks = foldl (add_present m) acc ks.
Proof.
  revert acc. induction ks as [| j ks IH]; intros acc Hk; simpl; [done |].
  apply not_elem_of_cons in Hk as [Hne Hk].
  rewrite IH by done. f_equal.
  unfold add_present. by rewrite lookup_insert_ne.
Qed.

Lemma foldl_add_present_insert_in (m : gmap Z Z) k v old (ks : list Z) acc :
  NoDup ks → k ∈ ks → m !! k = Some old →
  foldl (add_present (<[k := v]> m)) acc ks
  = foldl (add_present m) acc ks + (v - old).
Proof.
  revert acc. induction ks as [| j ks IH]; intros acc Hnd Hk Hold; simpl.
  - by apply elem_of_nil in Hk.
  - apply NoDup_cons in Hnd as [Hj Hnd].
    destruct (decide (j = k)) as [-> | Hne].
    + rewrite foldl_add_present_insert_notin by done.
      unfold add_present at 2 4. rewrite lookup_insert_eq, Hold.
      rewrite (foldl_add_present_shift m ks (acc + v)),
              (foldl_add_present_shift m ks (acc + old)). lia.
    + apply elem_of_cons in Hk as [-> | Hk]; [done |].
      rewrite IH by done. f_equal.
      unfold add_present at 2 4. by rewrite lookup_insert_ne.
Qed.

(** Overwriting a present element moves the sum by the difference and
    leaves [length] alone. *)
Lemma reduce_add_set (a : array) (k v old : Z) :
  0 ≤ k < len a → get a k = Some old →
  reduce_add (set a k v) = reduce_add a + (v - old) ∧ len (set a k v) = len a.
Proof.
  intros Hk Hold. unfold get in Hold.
  assert (Hlen : len (set a k v) = len a).
  { unfold set; simpl. destruct (is_index k); simpl; [| done].
    destruct (Z.leb_spec (len a) k); [lia | done]. }
  split; [| done].
  unfold reduce_add. rewrite Hlen. simpl.
  apply foldl_add_present_insert_in; [apply NoDup_seqZ | | done].
  apply elem_of_seqZ. lia.
Qed.

(** Writes touch one key only. *)
Lemma get_set_ne (a : array) (k j v : Z) :
  j ≠ k → get (set a k v) j = get a j.
Proof. intros Hne. unfold get, set; simpl. by rewrite lookup_insert_ne. Qed.

Lemma get_set_eq (a : array) (k v : Z) : get (set a k v) k = Some v.
Proof. unfold get, set; simpl. by rewrite lookup_insert_eq. Qed.

Lemma get_fill (n : nat) (v k : Z) :
  0 ≤ k < Z.of_nat n → get (fill n v) k = Some v.
Proof.
  intros Hk. unfold get, fill; simpl. rewrite fill_props_lookup.
  by case_decide.
Qed.

Lemma foldl_add_present_sum (m : gmap Z Z) (ks : list Z) (acc : Z) :
  foldl (add_present m) acc ks = acc + JsSpec.sum (omap (λ k, m !! k) ks).
Proof.
  revert acc. induction ks as [| k ks IH]; intros acc; cbn; [lia |].
  rewrite IH. unfold add_present, JsSpec.sum.
  destruct (m !! k) as [b |]; cbn; lia.
Qed.

(** [reduce] with [+] from [0n] adds up every element that is present. *)
Lemma reduce_add_elements (a : array) :
  reduce_add a = JsSpec.sum (JsSpec.elements a).
Proof.
  unfold reduce_add, JsSpec.elements, get.
  by rewrite foldl_add_present_sum.
Qed.

(** An array without holes has one element per index, in order. *)
Lemma elements_full (a : array) (n : nat) :
  len a = Z.of_nat n →
  (∀ i : nat, (i < n)%nat → is_Some (get a (Z.of_nat i))) →
  length (JsSpec.elements a) = n ∧
  ∀ i : nat, (i < n)%nat → JsSpec.elements a !! i = get a (Z.of_nat i).
Proof.
  intros Hlen Hall. unfold JsSpec.elements. rewrite Hlen. clear Hlen.
  induction n as [| n IH].
  - split; [done |]. intros i Hi. lia.
  - destruct IH as [IHlen IHget]; [intros i Hi; apply Hall; lia |].
    destruct (Hall n) as [t Ht]; [lia |].
    rewrite seqZ_S, omap_app. cbn [omap list_omap]. rewrite Z.add_0_l, Ht.
    split.
    + rewrite length_app. cbn. lia.
    + intros i Hi. destruct (decide (i = n)) as [-> | Hne].
      * rewrite lookup_app_r by lia. rewrite IHlen, Nat.sub_diag. by cbn.
      * rewrite lookup_app_l by lia. apply IHget. lia.
Qed.

End JsFacts.

(* ===================================================================== *)
(** ** The worker, batch by batch *)
(* ===================================================================== *)

Module WorkerFacts.
Import WorkerTs WorkerSpec.

Lemma BATCH_SIZE_eq : BATCH_SIZE = 100000.
Proof. reflexivity. Qed.

#[local] Opaque BATCH_SIZE.

Section Facts.
Variable v5 : string -> string -> string.
Variable v4 : N -> string.

(** The loop stops at the first draw that derives to the target and counts
    one per draw. *)
Lemma for_loop_spec (n : nat) (t : string) (d : N) (chk : Z) :
  match for_loop v5 v4 n t d chk with
  | (Matched cand, d', chk') =>
      (d < d' ≤ d + N.of_nat n)%N ∧ cand = v4 (N.pred d') ∧ v5 cand cand = t ∧
      no_match v5 v4 t d (N.pred d') ∧ chk' = chk + Z.of_N (d' - d)
  | (Exhausted, d', chk') =>
      d' = (d + N.of_nat n)%N ∧ no_match v5 v4 t d d' ∧
      chk' = chk + Z.of_N (d' - d)
  end.
Proof.
  revert d chk. induction n as [| n IH]; intros d chk.
  - simpl. split; [lia |]. split; [intros i Hi; lia | lia].
  - cbn [for_loop].
    destruct (String.eqb_spec (v5 (v4 d) (v4 d)) t) as [Heq | Hne].
    + rewrite N.pred_succ. repeat split; try lia; try done.
      intros i Hi; lia.
    + specialize (IH (N.succ d) (chk + 1)).
      destruct (for_loop v5 v4 n t (N.succ d) (chk + 1)) as [[[cand |] d'] chk'].
      * destruct IH as (Hd & Hc & Hv & Hno & Hchk).
        repeat split; try lia; try done.
        intros i Hi. destruct (decide (i = d)) as [-> | Hid]; [done |].
        apply Hno. lia.
      * destruct IH as (Hd & Hno & Hchk).
        repeat split; try lia.
        intros i Hi. destruct (decide (i = d)) as [-> | Hid]; [done |].
        apply Hno. lia.
Qed.

(** With no matching draw ahead the loop runs to its end. *)
Lemma for_loop_no_match (n : nat) (t : string) (d : N) (chk : Z) :
  no_match v5 v4 t d (d + N.of_nat n) →
  for_loop v5 v4 n t d chk = (Exhausted, (d + N.of_nat n)%N, chk + Z.of_nat n).
Proof.
  revert d chk. induction n as [| n IH]; intros d chk Hno.
  - simpl. f_equal; [f_equal |]; lia.
  - cbn [for_loop].
    destruct (String.eqb_spec (v5 (v4 d) (v4 d)) t) as [Heq | Hne].
    + exfalso. apply (Hno d); [lia | done].
    + rewrite IH.
      * f_equal; [f_equal |]; lia.
      * intros i Hi. apply Hno. lia.
Qed.

Lemma found_msg_with_checked (c : closure) (x : Z) cand chk :
  found_msg (with_checked c x) cand chk = found_msg c cand chk.
Proof. reflexivity. Qed.

Lemma checkBatch_single (c : closure) (ts : list nat) (d : N) :
  checked c = Z.of_N d →
  batch_result v5 v4 c ts d
    (checkBatch v5 v4 0 {| closures := [c]; timers := ts; draws := d |}).1
    (checkBatch v5 v4 0 {| closures := [c]; timers := ts; draws := d |}).2.
Proof.
  intros Hc. unfold checkBatch. cbn [closures timers draws lookup list_lookup].
  pose proof (for_loop_spec (Z.to_nat BATCH_SIZE) (targetPublic c) d (checked c)) as H.
  destruct (for_loop v5 v4 (Z.to_nat BATCH_SIZE) (targetPublic c) d (checked c))
    as [[[cand |] d'] chk']; cbn [fst snd insert list_insert].
  - destruct H as (Hd & -> & Hv & Hno & ->).
    replace (checked c + Z.of_N (d' - d)) with (Z.of_N d') by lia.
    apply batch_found; [lia | done | done].
  - destruct H as (Hd & Hno & ->).
    replace (checked c + Z.of_N (d' - d)) with (Z.of_N d') by lia.
    apply batch_progress; [lia | done].
Qed.

Lemma worker_run_app (es1 es2 : list event) (w : state) :
  run v5 v4 (es1 ++ es2) w =
  let '(w1, out1) := run v5 v4 es1 w in
  let '(w2, out2) := run v5 v4 es2 w1 in
  (w2, out1 ++ out2).
Proof.
  revert w. induction es1 as [| e es1 IH]; intros w; simpl.
  - by destruct (run v5 v4 es2 w).
  - destruct (step v5 v4 e w) as [w1 o1]. rewrite IH.
    destruct (run v5 v4 es1 w1) as [w2 o2].
    destruct (run v5 v4 es2 w2) as [w3 o3].
    by rewrite app_assoc.
Qed.

Lemma session_0 (m : Start.msg) :
  session v5 v4 m 0 =
  checkBatch v5 v4 0
    {| closures := [{| targetPublic := Start.targetPublic m;
                       workerId := Start.workerId m;
                       checked := 0; batchCount := 0 |}];
       timers := []; draws := 0%N |}.
Proof.
  unfold session. cbn [repeat run step]. unfold onmessage, idle.
  cbn [closures timers draws length app].
  destruct (checkBatch v5 v4 0 _) as [w1 o1]. by rewrite app_nil_r.
Qed.

Lemma session_S (m : Start.msg) (k : nat) :
  session v5 v4 m (S k) =
  let '(w1, out1) := session v5 v4 m k in
  let '(w2, out2) := step v5 v4 Timeout w1 in
  (w2, out1 ++ out2).
Proof.
  unfold session.
  replace (Message m :: repeat Timeout (S k))
    with ((Message m :: repeat Timeout k) ++ [Timeout]).
  - rewrite worker_run_app.
    destruct (run v5 v4 (Message m :: repeat Timeout k) idle) as [w1 o1].
    cbn [run]. destruct (step v5 v4 Timeout w1) as [w2 o2].
    by rewrite app_nil_r.
  - cbn [app repeat]. f_equal. symmetry. apply repeat_cons.
Qed.

Lemma progress_upto_S (wid : Z) (q : nat) :
  progress_upto wid (S q) =
  progress_upto wid q ++
  [{| Report.type := "progress"; Report.workerId := wid;
      Report.private := None;
      Report.checked := Js.bigint_toString (Z.of_nat (S q) * BATCH_SIZE) |}].
Proof. unfold progress_upto. by rewrite seq_S, fmap_app. Qed.

Lemma no_match_app (t : string) (a b c : N) :
  no_match v5 v4 t a b → no_match v5 v4 t b c → no_match v5 v4 t a c.
Proof.
  intros H1 H2 i Hi. destruct (decide (i < b)%N); [apply H1 | apply H2]; lia.
Qed.

Lemma session_result_eq m k w w' out out' :
  session_result v5 v4 m k w out → w = w' → out = out' →
  session_result v5 v4 m k w' out'.
Proof. by intros H <- <-. Qed.

(** The whole life of a worker that was sent one start message. *)
Lemma session_spec (m : Start.msg) (k : nat) :
  session_result v5 v4 m k (session v5 v4 m k).1 (session v5 v4 m k).2.
Proof.
  induction k as [| k IH].
  - rewrite session_0.
    set (c0 := {| targetPublic := Start.targetPublic m;
                  workerId := Start.workerId m; checked := 0; batchCount := 0 |}).
    pose proof (checkBatch_single c0 [] 0%N eq_refl) as Hb.
    destruct (checkBatch v5 v4 0
                {| closures := [c0]; timers := []; draws := 0%N |}) as [w1 o1].
    cbn [fst snd] in *.
    inversion Hb as [d' Hd Hno Hv | d' Hd Hno]; subst.
    + eapply session_result_eq.
      * apply (has_found v5 v4 m 0 (with_checked c0 (Z.of_N d')) 0 d');
          first [done | lia].
      * reflexivity.
      * reflexivity.
    + eapply session_result_eq.
      * apply (still_searching v5 v4 m 0
                 (next_batch c0 (Z.of_N (0 + Z.to_N BATCH_SIZE)))
                 (0 + Z.to_N BATCH_SIZE)%N); first [done | lia].
      * reflexivity.
      * unfold progress_upto, progress_msg. cbn [seq fmap list_fmap].
        replace (Z.of_N (0 + Z.to_N BATCH_SIZE)) with (Z.of_nat 1 * BATCH_SIZE)
          by (rewrite BATCH_SIZE_eq; lia).
        reflexivity.
  - rewrite session_S.
    destruct (session v5 v4 m k) as [w1 o1]. cbn [fst snd] in IH.
    inversion IH as [c d Ht Hw Hc Hd Hno | c q d Hq Ht Hw Hc Hd Hno Hv]; subst w1 o1.
    + unfold step. cbn [timers closures draws].
      pose proof (checkBatch_single c [] d Hc) as Hb.
      destruct (checkBatch v5 v4 0
                  {| closures := [c]; timers := []; draws := d |}) as [w2 o2].
      cbn [fst snd] in *.
      inversion Hb as [d' Hd' Hno' Hv' | d' Hd' Hno']; subst w2 o2.
      * eapply session_result_eq.
        -- apply (has_found v5 v4 m (S k) (with_checked c (Z.of_N d')) (S k) d');
             try first [done | lia].
           ++ eapply no_match_app; [exact Hno | by rewrite <- Ht].
           ++ congruence.
        -- reflexivity.
        -- reflexivity.
      * eapply session_result_eq.
        -- apply (still_searching v5 v4 m (S k) (next_batch c (Z.of_N d')) d');
             try first [done | lia].
           eapply no_match_app; [exact Hno | by rewrite <- Ht].
        -- reflexivity.
        -- rewrite (progress_upto_S _ (S k)). f_equal.
           unfold progress_msg. rewrite Hw.
           replace (Z.of_N d') with (Z.of_nat (S (S k)) * BATCH_SIZE)
             by (rewrite BATCH_SIZE_eq in *; lia).
           reflexivity.
    + unfold step. cbn [timers]. cbn [fst snd]. rewrite app_nil_r.
      apply (has_found v5 v4 m (S k) c q d); try done. lia.
Qed.

Lemma elem_of_progress_upto (wid : Z) (q : nat) (r : Report.msg) :
  r ∈ progress_upto wid q →
  Report.type r = "progress" ∧ Report.workerId r = wid ∧
  ∃ j : nat, (1 ≤ j ≤ q)%nat ∧
             Report.checked r = Js.bigint_toString (Z.of_nat j * BATCH_SIZE).
Proof.
  unfold progress_upto. intros Hr.
  apply list_elem_of_fmap in Hr as (j & -> & Hj).
  apply elem_of_seq in Hj. cbn. split; [done |]. split; [done |].
  exists j. split; [lia | done].
Qed.

Lemma last_progress_upto (wid : Z) (q : nat) :
  last (progress_upto wid (S q)) =
  Some {| Report.type := "progress"; Report.workerId := wid;
          Report.private := None;
          Report.checked := Js.bigint_toString (Z.of_nat (S q) * BATCH_SIZE) |}.
Proof. rewrite progress_upto_S. apply last_snoc. Qed.

(** A list that ends with its only ['found'] report splits in one way
    around a ['found'] report. *)
Lemma split_at_found (ps pre post : list Report.msg) (f g : Report.msg) :
  Forall (λ r, Report.type r = "progress") ps →
  Report.type f = "found" →
  ps ++ [g] = pre ++ f :: post →
  pre = ps ∧ f = g ∧ post = [].
Proof.
  intros Hps Hf. revert pre.
  induction Hps as [| a ps Ha Hps IH]; intros pre Heq.
  - destruct pre as [| b pre]; cbn in Heq.
    + by injection Heq as <- <-.
    + injection Heq as _ Heq. by destruct pre.
  - destruct pre as [| b pre]; cbn in Heq.
    + injection Heq as <- _. congruence.
    + injection Heq as <- Heq. destruct (IH pre Heq) as (-> & -> & ->). done.
Qed.

(** A worker with no pending timer ignores timer callbacks. *)
Lemma session_quiet (m : Start.msg) (k k' : nat) :
  timers (session v5 v4 m k).1 = [] → (k ≤ k')%nat →
  session v5 v4 m k' = session v5 v4 m k.
Proof.
  intros Hts Hk. induction Hk as [| k' Hk IH]; [done |].
  rewrite session_S, IH.
  destruct (session v5 v4 m k) as [w1 o1]. cbn [fst] in Hts.
  unfold step. rewrite Hts. by rewrite app_nil_r.
Qed.

(** A worker whose first matching draw is draw [j], in batch [q + 1],
    reports [q] batches and then the match, having drawn nothing more. *)
Lemma session_finds (m : Start.msg) (k q : nat) (j : N) :
  (q ≤ k)%nat →
  (N.of_nat q * Z.to_N BATCH_SIZE ≤ j < N.of_nat (S q) * Z.to_N BATCH_SIZE)%N →
  no_match v5 v4 (Start.targetPublic m) 0 j →
  v5 (v4 j) (v4 j) = Start.targetPublic m →
  (session v5 v4 m k).2
  = progress_upto (Start.workerId m) q ++
    [{| Report.type := "found"; Report.workerId := Start.workerId m;
        Report.private := Some (v4 j);
        Report.checked := Js.bigint_toString (Z.of_N j + 1) |}] ∧
  draws (session v5 v4 m k).1 = N.succ j ∧
  timers (session v5 v4 m k).1 = [].
Proof.
  intros Hq Hj Hbefore Hat.
  pose proof (session_spec m k) as Hs.
  destruct (session v5 v4 m k) as [w posted]. cbn [fst snd] in *.
  pose proof BATCH_SIZE_eq as HB.
  inversion Hs as [c d Ht Hw Hc Hd Hno | c q' d Hq' Ht Hw Hc Hd Hno Hv];
    subst w posted.
  - exfalso. apply (Hno j); [| done]. rewrite HB in *. lia.
  - assert (Hjd : N.pred d = j).
    { destruct (N.lt_trichotomy (N.pred d) j) as [Hlt | [Heq | Hgt]]; [| done |].
      - exfalso. apply (Hbefore (N.pred d)); [lia | done].
      - exfalso. apply (Hno j); [lia | done]. }
    assert (Hd' : d = N.succ j) by lia.
    assert (Hqq : q' = q) by (rewrite HB in *; lia).
    subst q' d. cbn [draws timers]. split; [| done].
    f_equal. unfold found_msg. rewrite Hw, N.pred_succ.
    replace (Z.of_N (N.succ j)) with (Z.of_N j + 1) by lia. reflexivity.
Qed.

(** *** Any closure, any worker state *)

Lemma checkBatch_matched (id : nat) (w : state) (c : closure)
    (cand : string) (d : N) (chk : Z) :
  closures w !! id = Some c →
  for_loop v5 v4 (Z.to_nat BATCH_SIZE) (targetPublic c) (draws w) (checked c)
  = (Matched cand, d, chk) →
  checkBatch v5 v4 id w =
  ({| closures := <[id := with_checked c chk]> (closures w);
      timers := timers w; draws := d |},
   [found_msg c cand chk]).
Proof. intros Hc Hl. unfold checkBatch. by rewrite Hc, Hl. Qed.

Lemma checkBatch_exhausted (id : nat) (w : state) (c : closure) (d : N) (chk : Z) :
  closures w !! id = Some c →
  for_loop v5 v4 (Z.to_nat BATCH_SIZE) (targetPublic c) (draws w) (checked c)
  = (Exhausted, d, chk) →
  checkBatch v5 v4 id w =
  ({| closures := <[id := next_batch c chk]> (closures w);
      timers := timers w ++ [id]; draws := d |},
   [progress_msg c chk]).
Proof. intros Hc Hl. unfold checkBatch. by rewrite Hc, Hl. Qed.

(** A call of [checkBatch] posts one report, removes no pending timer and
    closes no closure. *)
Lemma checkBatch_frame (id : nat) (w : state) :
  is_Some (closures w !! id) →
  length (checkBatch v5 v4 id w).2 = 1%nat ∧
  timers w `prefix_of` timers (checkBatch v5 v4 id w).1 ∧
  length (closures (checkBatch v5 v4 id w).1) = length (closures w).
Proof.
  intros [c Hc].
  destruct (for_loop v5 v4 (Z.to_nat BATCH_SIZE) (targetPublic c) (draws w)
              (checked c)) as [[[cand |] d] chk] eqn:Hl.
  - rewrite (checkBatch_matched id w c cand d chk) by done. cbn.
    split; [done |]. split; [done |]. by rewrite length_insert.
  - rewrite (checkBatch_exhausted id w c d chk) by done. cbn.
    split; [done |]. split; [by apply prefix_app_r |]. by rewrite length_insert.
Qed.

(** Whatever the message, [onmessage] leaves the pending timers pending and
    the closures open. *)
Lemma onmessage_frame (m : Start.msg) (w : state) :
  timers w `prefix_of` timers (onmessage v5 v4 m w).1 ∧
  length (closures (onmessage v5 v4 m w).1) = S (length (closures w)).
Proof.
  unfold onmessage.
  match goal with
  | |- context [checkBatch _ _ ?id ?w0] =>
      destruct (checkBatch_frame id w0) as (_ & Hts & Hlen)
  end.
  - cbn. rewrite lookup_app_r by done. rewrite Nat.sub_diag. by eexists.
  - split; [done |]. rewrite Hlen. cbn. rewrite length_app. cbn. lia.
Qed.

End Facts.
End WorkerFacts.

(* ===================================================================== *)
(** ** The handlers of the main thread *)
(* ===================================================================== *)

Module MainFacts.
Import Main MainSpec.

Ltac run_proc :=
  unfold mbind, proc_bind, mret, proc_ret, console_log, modify, gets,
    process_exit, recompute_total; cbn.

Lemma state_eq (s s' : state) :
  workers s = workers s' → workerProgress s = workerProgress s' →
  totalChecked s = totalChecked s' → running s = running s' →
  found s = found s' → progressInterval s = progressInterval s' →
  stdout s = stdout s' → s = s'.
Proof. destruct s, s'; cbn; intros; congruence. Qed.

(** [stopAll] always ends the process with code 0, after one closing block
    computed from the table as it stands. *)
Lemma stopAll_eq (s : state) : stopAll s = (Exit 0, stopped s).
Proof.
  unfold stopAll. run_proc. unfold stopped, summary_lines.
  destruct (found s) eqn:Hf; cbn; f_equal;
    apply state_eq; cbn; try done; by rewrite <- !app_assoc.
Qed.

Lemma tick_running (s : state) :
  running s = true → tick s = (Return tt, ticked s).
Proof.
  intros Hr. unfold tick. run_proc. rewrite Hr. run_proc. f_equal.
  apply state_eq; cbn; try done. by rewrite <- !app_assoc.
Qed.

Lemma tick_not_running (s : state) :
  running s = false → tick s = (Return tt, s).
Proof. intros Hr. unfold tick. run_proc. by rewrite Hr. Qed.

Lemma on_sigint_eq (s : state) :
  on_sigint s = (Exit 0, stopped (interrupted s)).
Proof.
  unfold on_sigint. run_proc.
  change (stopAll (write Stopping (write Blank s)) =
          (Exit 0, stopped (interrupted s))).
  apply stopAll_eq.
Qed.

Lemma onmessage_progress (m : Report.msg) (v : Z) (s : state) :
  Report.type m = "progress" → Js.BigInt (Report.checked m) = Some v →
  onmessage m s =
  (Return tt,
   set_workerProgress (Js.set (workerProgress s) (Report.workerId m) v) s).
Proof.
  intros Ht Hv. unfold onmessage. rewrite Ht. cbn [String.eqb Ascii.eqb Bool.eqb].
  unfold BigInt. run_proc. by rewrite Hv.
Qed.

Lemma onmessage_progress_throw (m : Report.msg) (s : state) :
  Report.type m = "progress" → Js.BigInt (Report.checked m) = None →
  onmessage m s = (Throw "SyntaxError", s).
Proof.
  intros Ht Hv. unfold onmessage. rewrite Ht. cbn [String.eqb Ascii.eqb Bool.eqb].
  unfold BigInt. run_proc. by rewrite Hv.
Qed.

Lemma onmessage_found (m : Report.msg) (v : Z) (s : state) :
  Report.type m = "found" → Js.BigInt (Report.checked m) = Some v →
  onmessage m s = (Exit 0, stopped (announced (Report.private m) v s)).
Proof.
  intros Ht Hv. unfold onmessage. rewrite Ht. cbn [String.eqb Ascii.eqb Bool.eqb].
  unfold BigInt. run_proc. rewrite Hv.
  match goal with |- stopAll ?x = _ => rewrite (stopAll_eq x) end.
  f_equal. f_equal. apply state_eq; cbn; try done.
  by rewrite <- !app_assoc.
Qed.

Lemma onmessage_found_throw (m : Report.msg) (s : state) :
  Report.type m = "found" → Js.BigInt (Report.checked m) = None →
  onmessage m s =
  (Throw "SyntaxError",
   write (PrivateUuid (Report.private m))
     (write FoundIt (write Blank (set_running false (set_found true s))))).
Proof.
  intros Ht Hv. unfold onmessage. rewrite Ht. cbn [String.eqb Ascii.eqb Bool.eqb].
  unfold BigInt. run_proc. by rewrite Hv.
Qed.

Lemma onmessage_other (m : Report.msg) (s : state) :
  Report.type m ≠ "progress" → Report.type m ≠ "found" →
  onmessage m s = (Return tt, s).
Proof.
  intros Hp Hf. unfold onmessage.
  destruct (String.eqb_spec (Report.type m) "progress"); [done |].
  destruct (String.eqb_spec (Report.type m) "found"); [done |].
  reflexivity.
Qed.

Lemma summaries_app (s : state) (os : list output) (s' : state) :
  stdout s' = stdout s ++ os →
  summaries s' = (summaries s + length (List.filter is_summary os))%nat.
Proof.
  intros H. unfold summaries. by rewrite H, List.filter_app, length_app.
Qed.

Lemma summaries_stopped (s : state) :
  summaries (stopped s) = S (summaries s).
Proof.
  rewrite (summaries_app s (summary_lines s)) by done.
  unfold summary_lines. destruct (found s); cbn; lia.
Qed.

Lemma private_not_in_summary (s : state) (p : option string) :
  PrivateUuid p ∉ summary_lines s.
Proof.
  unfold summary_lines. intros H.
  destruct (found s); cbn in H;
    repeat (apply elem_of_cons in H as [H | H]; [discriminate |]);
    by apply elem_of_nil in H.
Qed.

End MainFacts.

(* ===================================================================== *)
(** ** The invariant of a run *)
(* ===================================================================== *)

Module SystemFacts.
Import System SystemSpec.

Section Facts.
Variable v5 : string -> string -> string.
Variable v4 : nat -> N -> string.
Variable targetPrivate : string.
Variable hardwareConcurrency : nat.

Local Abbreviation TP := (targetPublic v5 targetPrivate).
Local Abbreviation COUNT := (WORKER_COUNT hardwareConcurrency).
Local Abbreviation chain' := (chain v5 targetPrivate).
Local Abbreviation report_ok' := (report_ok v5 targetPrivate).
Local Abbreviation node_ok' := (node_ok v5 targetPrivate).
Local Abbreviation pool_ok' := (pool_ok v5 targetPrivate hardwareConcurrency).
Local Abbreviation printed_ok' := (printed_ok v5 targetPrivate).
Local Abbreviation status_ok' := (status_ok hardwareConcurrency).
Local Abbreviation inv' := (inv v5 targetPrivate hardwareConcurrency).

Lemma chain_le (i : nat) (lo hi : Z) (rs : list Report.msg) :
  chain' i lo rs hi → lo ≤ hi.
Proof.
  revert lo. induction rs as [| r rs IH]; intros lo; cbn; [done |].
  intros (n & Hn & _ & Hch). apply IH in Hch. lia.
Qed.

Lemma chain_weaken (i : nat) (lo lo' hi : Z) (rs : list Report.msg) :
  lo' ≤ lo → chain' i lo rs hi → chain' i lo' rs hi.
Proof.
  destruct rs as [| r rs]; cbn; [lia |].
  intros Hle (n & Hn & Hr & Hch). exists n. split; [lia | done].
Qed.

Lemma chain_snoc (i : nat) (lo hi n : Z) (rs : list Report.msg) (r : Report.msg) :
  chain' i lo rs hi → hi ≤ n → report_ok' i n r → chain' i lo (rs ++ [r]) n.
Proof.
  revert lo. induction rs as [| r0 rs IH]; intros lo; cbn.
  - intros Hlo Hhi Hr. exists n. split; [lia |]. split; [done | lia].
  - intros (n0 & Hn0 & Hr0 & Hch) Hhi Hr. exists n0.
    split; [done |]. split; [done |]. by apply IH.
Qed.

(** A batch run by worker [i]'s only closure keeps the node in order. *)
Lemma batch_node_ok (i : nat) (t : Z) (c : WorkerTs.closure) (d : N)
    (rs : list Report.msg) (w' : WorkerTs.state) (posted : list Report.msg) :
  WorkerTs.targetPublic c = TP →
  WorkerTs.workerId c = Z.of_nat i →
  chain' i t rs (Z.of_N d) →
  WorkerSpec.batch_result v5 (v4 i) c [] d w' posted →
  node_ok' i t {| worker := w'; inbox := []; outbox := rs ++ posted |}.
Proof.
  intros Htp Hwid Hch Hb.
  destruct Hb as [d' Hd Hno Hv | d' Hd Hno].
  - apply node_started; try done; [by left |].
    apply (chain_snoc i t (Z.of_N d)); [done | lia |].
    split; [done |]. split; [done |]. right. split; [done |].
    eexists. split; [reflexivity |]. by rewrite Hv.
  - apply node_started; try done; [by right |].
    apply (chain_snoc i t (Z.of_N d)); [done | lia |].
    split; [done |]. split; [done |]. by left.
Qed.

Lemma node_message (i : nat) (t : Z) (nd : node) (m : Start.msg)
    (rest : list Start.msg) :
  node_ok' i t nd → inbox nd = m :: rest →
  node_ok' i t
    {| worker := (WorkerTs.step v5 (v4 i) (WorkerTs.Message m) (worker nd)).1;
       inbox := rest;
       outbox := outbox nd ++
                 (WorkerTs.step v5 (v4 i) (WorkerTs.Message m) (worker nd)).2 |}.
Proof.
  intros Hnd Hin.
  destruct Hnd as [Ht | c ts d rs Htp Hwid Hc Hts Hch]; cbn in Hin; [| done].
  injection Hin as <- <-. subst t.
  cbn [worker outbox spawn WorkerTs.step]. unfold WorkerTs.onmessage, WorkerTs.idle.
  cbn [WorkerTs.closures WorkerTs.timers WorkerTs.draws length app
       Start.targetPublic Start.workerId].
  match goal with
  | |- context [WorkerTs.checkBatch _ _ _ {| WorkerTs.closures := [?c0] |}] =>
      pose proof (WorkerFacts.checkBatch_single v5 (v4 i) c0 [] 0%N eq_refl) as Hb
  end.
  apply (batch_node_ok i 0 _ 0%N []) in Hb; cbn; done.
Qed.

Lemma node_timeout (i : nat) (t : Z) (nd : node) :
  node_ok' i t nd →
  node_ok' i t
    {| worker := (WorkerTs.step v5 (v4 i) WorkerTs.Timeout (worker nd)).1;
       inbox := inbox nd;
       outbox := outbox nd ++
                 (WorkerTs.step v5 (v4 i) WorkerTs.Timeout (worker nd)).2 |}.
Proof.
  intros Hnd.
  destruct Hnd as [Ht | c ts d rs Htp Hwid Hc Hts Hch].
  - by apply node_fresh.
  - cbn [worker inbox outbox WorkerTs.step WorkerTs.timers WorkerTs.closures
         WorkerTs.draws].
    destruct Hts as [-> | ->].
    + cbn [fst snd]. rewrite app_nil_r. apply node_started; try done. by left.
    + pose proof (WorkerFacts.checkBatch_single v5 (v4 i) c [] d Hc) as Hb.
      by apply (batch_node_ok i t c d rs).
Qed.

Lemma pool_lookup_lt (s : state) (i : nat) (nd : node) :
  pool_ok' s → pool s !! i = Some nd → (i < COUNT)%nat.
Proof.
  intros (_ & Hlen & _) Hnd. rewrite <- Hlen. by eapply lookup_lt_Some.
Qed.

(** Replacing node [i], with the table either untouched or overwritten at
    [i], keeps the pool in order. *)
Lemma pool_ok_update (s s' : state) (i : nat) (nd nd' : node) (t t' : Z) :
  pool_ok' s → pool s !! i = Some nd →
  Js.get (Main.workerProgress (main s)) (Z.of_nat i) = Some t →
  pool s' = <[i := nd']> (pool s) →
  (Main.workerProgress (main s') = Main.workerProgress (main s) ∧ t' = t) ∨
  Main.workerProgress (main s')
  = Js.set (Main.workerProgress (main s)) (Z.of_nat i) t' →
  node_ok' i t' nd' →
  pool_ok' s'.
Proof.
  intros Hok Hnd Ht Hpool Htbl Hnd'.
  pose proof (pool_lookup_lt s i nd Hok Hnd) as Hi.
  destruct Hok as (Hlen & Hpl & Hall).
  split; [| split].
  - destruct Htbl as [[-> _] | ->]; [done |].
    rewrite <- Hlen.
    apply (JsFacts.reduce_add_set _ _ t' t); [lia | done].
  - by rewrite Hpool, length_insert.
  - intros j ndj Hj. rewrite Hpool in Hj.
    destruct (decide (i = j)) as [<- | Hne].
    + rewrite list_lookup_insert_eq in Hj by (by eapply lookup_lt_Some).
      injection Hj as <-. exists t'. split; [| done].
      destruct Htbl as [[-> ->] | ->]; [done |].
      apply JsFacts.get_set_eq.
    + rewrite list_lookup_insert_ne in Hj by done.
      destruct (Hall j ndj Hj) as (tj & Htj & Hndj).
      exists tj. split; [| done].
      destruct Htbl as [[-> _] | ->]; [done |].
      rewrite JsFacts.get_set_ne; [done | lia].
Qed.

Lemma pool_ok_same (s s' : state) :
  pool s' = pool s →
  Main.workerProgress (main s') = Main.workerProgress (main s) →
  pool_ok' s → pool_ok' s'.
Proof. unfold pool_ok. by intros -> ->. Qed.

Lemma inv_init : inv' (init v5 targetPrivate hardwareConcurrency).
Proof.
  split; [| split].
  - split; [done |]. split.
    + cbn. by rewrite length_fmap, length_seq.
    + intros i nd Hnd. cbn in Hnd.
      rewrite list_lookup_fmap in Hnd.
      destruct (seq 0 COUNT !! i) as [j |] eqn:Hj; [| done].
      apply lookup_seq in Hj as [-> Hi]. injection Hnd as <-.
      exists 0. split; [| by apply node_fresh].
      apply JsFacts.get_fill. lia.
  - intros p Hp. cbn in Hp. by apply elem_of_nil in Hp.
  - cbn. done.
Qed.

Lemma worker_task_inv (s : state) (i : nat) (nd : node) (e : WorkerTs.event)
    (rest : list Start.msg) :
  inv' s → pool s !! i = Some nd →
  (∀ t, node_ok' i t nd →
        node_ok' i t
          {| worker := (WorkerTs.step v5 (v4 i) e (worker nd)).1;
             inbox := rest;
             outbox := outbox nd ++ (WorkerTs.step v5 (v4 i) e (worker nd)).2 |}) →
  inv' (worker_task v5 v4 i nd e rest s).
Proof.
  intros (Hpool & Hprint & Hstat) Hnd Hstep. unfold worker_task.
  specialize (Hstep).
  destruct (WorkerTs.step v5 (v4 i) e (worker nd)) as [w' posted].
  cbn [fst snd] in Hstep.
  split; [| split]; [| done | done].
  destruct Hpool as (Hlen & Hpl & Hall).
  destruct (Hall i nd Hnd) as (t & Ht & Hok).
  eapply (pool_ok_update s _ i nd _ t t); try done.
  - by left.
  - by apply Hstep.
Qed.

Lemma deliver_inv (s : state) (i : nat) (nd : node) (r : Report.msg)
    (rest : list Report.msg) :
  inv' s → process s = Live → pool s !! i = Some nd → outbox nd = r :: rest →
  inv' (dispatch (Main.onmessage r)
          (set_pool (<[i := {| worker := worker nd; inbox := inbox nd;
                               outbox := rest |}]> (pool s)) s)).
Proof.
  intros (Hpool & Hprint & Hstat) Hlive Hnd Hout.
  pose proof Hpool as (Hlen & Hpl & Hall).
  destruct (Hall i nd Hnd) as (t & Ht & Hok).
  destruct Hok as [Ht0 | c ts d rs Htp Hwid Hc Hts Hch]; cbn in Hout; [done |].
  subst rs. cbn in Hch. destruct Hch as (n & Hn & (Hw & Hck & Hty) & Hch).
  assert (Hparse : Js.BigInt (Report.checked r) = Some n)
    by (rewrite Hck; apply JsFacts.BigInt_toString).
  unfold status_ok in Hstat. rewrite Hlive in Hstat.
  destruct Hstat as (Hrun & Hfound & Hint & Hws & Hsum).
  unfold dispatch. cbn [main set_pool pool].
  destruct Hty as [Hty | (Hty & cand & Hpriv & Hv)].
  - rewrite (MainFacts.onmessage_progress r n) by done.
    split; [| split].
    + eapply (pool_ok_update s _ i _ _ t n); try done.
      * cbn. right. by rewrite Hw.
      * cbn [worker inbox]. by apply node_started.
    + intros p Hp. by apply Hprint.
    + cbn. done.
  - rewrite (MainFacts.onmessage_found r n) by done.
    split; [| split].
    + eapply (pool_ok_update s _ i _ _ t t); try done.
      * cbn. by left.
      * cbn [worker inbox]. apply node_started; try done.
        by apply (chain_weaken i n).
    + intros p Hp. cbn [main Main.stdout MainSpec.stopped MainSpec.announced] in Hp.
      apply elem_of_app in Hp as [Hp | Hp];
        [| by apply MainFacts.private_not_in_summary in Hp].
      apply elem_of_app in Hp as [Hp | Hp]; [by apply Hprint |].
      repeat (apply elem_of_cons in Hp as [Hp | Hp]; try discriminate).
      * injection Hp as ->. by exists cand.
      * by apply elem_of_nil in Hp.
    + cbn [status_ok process main].
      split; [done |]. split; [done |]. split; [done |]. split.
      * cbn. apply Forall_fmap, Forall_true. done.
      * rewrite MainFacts.summaries_stopped. f_equal.
        rewrite (MainFacts.summaries_app (main s)
                   [Main.Blank; Main.FoundIt; Main.PrivateUuid (Report.private r);
                    Main.Checked n]) by done.
        cbn. lia.
Qed.

Lemma interval_inv (s : state) :
  inv' s → process s = Live → inv' (dispatch Main.tick s).
Proof.
  intros (Hpool & Hprint & Hstat) Hlive.
  unfold status_ok in Hstat. rewrite Hlive in Hstat.
  destruct Hstat as (Hrun & Hfound & Hint & Hws & Hsum).
  unfold dispatch. rewrite MainFacts.tick_running by done.
  split; [| split].
  - by apply (pool_ok_same s).
  - intros p Hp. cbn in Hp.
    apply elem_of_app in Hp as [Hp | Hp]; [by apply Hprint |].
    repeat (apply elem_of_cons in Hp as [Hp | Hp]; try discriminate).
    by apply elem_of_nil in Hp.
  - cbn [status_ok process main].
    split; [done |]. split; [done |]. split; [done |]. split; [done |].
    rewrite (MainFacts.summaries_app (main s)
               [Main.CarriageReturn;
                Main.Status (Js.reduce_add (Main.workerProgress (main s)))])
      by done.
    cbn. lia.
Qed.

Lemma sigint_inv (s : state) :
  inv' s → process s = Live → inv' (dispatch Main.on_sigint s).
Proof.
  intros (Hpool & Hprint & Hstat) Hlive.
  unfold status_ok in Hstat. rewrite Hlive in Hstat.
  destruct Hstat as (Hrun & Hfound & Hint & Hws & Hsum).
  unfold dispatch. rewrite MainFacts.on_sigint_eq.
  split; [| split].
  - by apply (pool_ok_same s).
  - intros p Hp. cbn [main Main.stdout MainSpec.stopped] in Hp.
    apply elem_of_app in Hp as [Hp | Hp];
      [| by apply MainFacts.private_not_in_summary in Hp].
    cbn in Hp. rewrite <- app_assoc in Hp.
    apply elem_of_app in Hp as [Hp | Hp]; [by apply Hprint |].
    repeat (apply elem_of_cons in Hp as [Hp | Hp]; try discriminate).
    by apply elem_of_nil in Hp.
  - cbn [status_ok process main].
    split; [done |]. split; [done |]. split; [done |]. split.
    + cbn. apply Forall_fmap, Forall_true. done.
    + rewrite MainFacts.summaries_stopped. f_equal.
      rewrite (MainFacts.summaries_app (main s) [Main.Blank; Main.Stopping]).
      * cbn. lia.
      * cbn. by rewrite <- app_assoc.
Qed.

(** Every event keeps the invariant. *)
Lemma step_inv (s : state) (e : event) : inv' s → inv' (step v5 v4 s e).
Proof.
  intros Hinv. unfold step.
  destruct (process s) eqn:Hlive; [| done | done].
  destruct e as [i | i | i | |].
  - destruct (can_run s i); [| done].
    destruct (pool s !! i) as [nd |] eqn:Hnd; [| done].
    destruct (inbox nd) as [| m rest] eqn:Hin; [done |].
    apply worker_task_inv; [done | done |].
    intros t Hok. by apply node_message.
  - destruct (can_run s i); [| done].
    destruct (pool s !! i) as [nd |] eqn:Hnd; [| done].
    apply worker_task_inv; [done | done |].
    intros t Hok. by apply node_timeout.
  - destruct (can_run s i); [| done].
    destruct (pool s !! i) as [nd |] eqn:Hnd; [| done].
    destruct (outbox nd) as [| r rest] eqn:Hout; [done |].
    by apply deliver_inv.
  - destruct (Main.progressInterval (main s)); [| done].
    by apply interval_inv.
  - by apply sigint_inv.
Qed.

Lemma run_snoc (es : list event) (e : event) :
  run v5 v4 targetPrivate hardwareConcurrency (es ++ [e])
  = step v5 v4 (run v5 v4 targetPrivate hardwareConcurrency es) e.
Proof. unfold run. by rewrite foldl_app. Qed.

(** The invariant holds all along every run. *)
Lemma run_inv (es : list event) :
  inv' (run v5 v4 targetPrivate hardwareConcurrency es).
Proof.
  induction es as [| e es IH] using rev_ind.
  - apply inv_init.
  - rewrite run_snoc. by apply step_inv.
Qed.

(** Once the process is gone nothing moves any more. *)
Lemma step_not_live (s : state) (e : event) :
  process s ≠ Live → step v5 v4 s e = s.
Proof. intros H. unfold step. by destruct (process s). Qed.

Lemma steps_not_live (s : state) (es : list event) :
  process s ≠ Live → foldl (step v5 v4) s es = s.
Proof.
  intros H. induction es as [| e es IH]; cbn; [done |].
  by rewrite step_not_live.
Qed.

Lemma run_append (es es' : list event) :
  run v5 v4 targetPrivate hardwareConcurrency (es ++ es')
  = foldl (step v5 v4) (run v5 v4 targetPrivate hardwareConcurrency es) es'.
Proof. unfold run. by rewrite foldl_app. Qed.

(** What the main thread finds at the head of worker [i]'s queue. *)
Lemma deliver_head (s : state) (i : nat) (nd : node) (r : Report.msg)
    (rest : list Report.msg) :
  inv' s → pool s !! i = Some nd → outbox nd = r :: rest →
  ∃ t n, Js.get (Main.workerProgress (main s)) (Z.of_nat i) = Some t ∧
         t ≤ n ∧
         0 ≤ Z.of_nat i < Js.len (Main.workerProgress (main s)) ∧
         Report.workerId r = Z.of_nat i ∧
         Js.BigInt (Report.checked r) = Some n ∧
         (Report.type r = "progress" ∨ Report.type r = "found").
Proof.
  intros (Hpool & _ & _) Hnd Hout.
  pose proof (pool_lookup_lt s i nd Hpool Hnd) as Hi.
  destruct Hpool as (Hlen & Hpl & Hall).
  destruct (Hall i nd Hnd) as (t & Ht & Hok).
  destruct Hok as [Ht0 | c ts d rs Htp Hwid Hc Hts Hch]; cbn in Hout; [done |].
  subst rs. cbn in Hch. destruct Hch as (n & Hn & (Hw & Hck & Hty) & Hch).
  exists t, n. split; [done |]. split; [done |]. split; [lia |].
  split; [done |]. split; [rewrite Hck; apply JsFacts.BigInt_toString |].
  destruct Hty as [Hty | (Hty & _)]; [by left | by right].
Qed.

(** No event lowers the sum of the table. *)
Lemma step_table_mono (s : state) (e : event) :
  inv' s → table_sum s ≤ table_sum (step v5 v4 s e).
Proof.
  intros Hinv. unfold step.
  destruct (process s) eqn:Hlive; [| lia | lia].
  destruct e as [i | i | i | |].
  - destruct (can_run s i); [| lia].
    destruct (pool s !! i) as [nd |] eqn:Hnd; [| lia].
    destruct (inbox nd) as [| m rest] eqn:Hin; [lia |].
    unfold worker_task. destruct (WorkerTs.step _ _ _ _).
    unfold table_sum. cbn. lia.
  - destruct (can_run s i); [| lia].
    destruct (pool s !! i) as [nd |] eqn:Hnd; [| lia].
    unfold worker_task. destruct (WorkerTs.step _ _ _ _).
    unfold table_sum. cbn. lia.
  - destruct (can_run s i); [| lia].
    destruct (pool s !! i) as [nd |] eqn:Hnd; [| lia].
    destruct (outbox nd) as [| r rest] eqn:Hout; [lia |].
    destruct (deliver_head s i nd r rest Hinv Hnd Hout)
      as (t & n & Ht & Hle & Hi & Hw & Hparse & [Hty | Hty]).
    + unfold dispatch. cbn [main set_pool].
      rewrite (MainFacts.onmessage_progress r n) by done.
      unfold table_sum. cbn. rewrite Hw.
      destruct (JsFacts.reduce_add_set _ _ n t Hi Ht) as [-> _]. lia.
    + unfold dispatch. cbn [main set_pool].
      rewrite (MainFacts.onmessage_found r n) by done.
      unfold table_sum. cbn. lia.
  - destruct (Main.progressInterval (main s)); [| lia].
    destruct Hinv as (_ & _ & Hstat).
    unfold status_ok in Hstat. rewrite Hlive in Hstat.
    destruct Hstat as (Hrun & _).
    unfold dispatch. rewrite MainFacts.tick_running by done.
    unfold table_sum. cbn. lia.
  - unfold dispatch. rewrite MainFacts.on_sigint_eq.
    unfold table_sum. cbn. lia.
Qed.

(** No event lowers or removes an entry of the table. *)
Lemma step_entry_mono (s : state) (e : event) (k t : Z) :
  inv' s → Js.get (Main.workerProgress (main s)) k = Some t →
  ∃ t', Js.get (Main.workerProgress (main (step v5 v4 s e))) k = Some t' ∧
        t ≤ t'.
Proof.
  intros Hinv Hk.
  assert (Hsame : ∃ t', Js.get (Main.workerProgress (main s)) k = Some t' ∧ t ≤ t')
    by (exists t; split; [done | lia]).
  unfold step.
  destruct (process s) eqn:Hlive; [| done | done].
  destruct e as [i | i | i | |].
  - destruct (can_run s i); [| done].
    destruct (pool s !! i) as [nd |] eqn:Hnd; [| done].
    destruct (inbox nd) as [| m rest] eqn:Hin; [done |].
    unfold worker_task. by destruct (WorkerTs.step _ _ _ _).
  - destruct (can_run s i); [| done].
    destruct (pool s !! i) as [nd |] eqn:Hnd; [| done].
    unfold worker_task. by destruct (WorkerTs.step _ _ _ _).
  - destruct (can_run s i); [| done].
    destruct (pool s !! i) as [nd |] eqn:Hnd; [| done].
    destruct (outbox nd) as [| r rest] eqn:Hout; [done |].
    destruct (deliver_head s i nd r rest Hinv Hnd Hout)
      as (ti & n & Hti & Hle & Hi & Hw & Hparse & [Hty | Hty]).
    + unfold dispatch. cbn [main set_pool].
      rewrite (MainFacts.onmessage_progress r n) by done.
      cbn [main Main.workerProgress Main.set_workerProgress]. rewrite Hw.
      destruct (decide (k = Z.of_nat i)) as [-> | Hne].
      * exists n. split; [apply JsFacts.get_set_eq |]. 
        rewrite Hti in Hk. injection Hk as <-. done.
      * rewrite JsFacts.get_set_ne by done. done.
    + unfold dispatch. cbn [main set_pool].
      by rewrite (MainFacts.onmessage_found r n).
  - destruct (Main.progressInterval (main s)); [| done].
    destruct Hinv as (_ & _ & Hstat).
    unfold status_ok in Hstat. rewrite Hlive in Hstat.
    destruct Hstat as (Hrun & _).
    unfold dispatch. by rewrite MainFacts.tick_running.
  - unfold dispatch. by rewrite MainFacts.on_sigint_eq.
Qed.

End Facts.
End SystemFacts.

(* ===================================================================== *)
(** ** Properties of the search coordinator *)
(* ===================================================================== *)

Module Claims.
Import System.

Lemma chain_elem v5 targetPrivate (i : nat) (lo hi : Z) (rs : list Report.msg)
    (r : Report.msg) :
  SystemSpec.chain v5 targetPrivate i lo rs hi → r ∈ rs →
  ∃ n, SystemSpec.report_ok v5 targetPrivate i n r.
Proof.
  revert lo. induction rs as [| r0 rs IH]; intros lo Hch Hr.
  - by apply elem_of_nil in Hr.
  - cbn in Hch. destruct Hch as (n & _ & Hok & Hch).
    apply elem_of_cons in Hr as [-> | Hr]; [by exists n | by eapply IH].
Qed.

(** C1. The target pair is made once, its public half being the derivation
    [c ↦ UUID.v5(c, c)] of its private half; a worker applies the same
    derivation to every candidate, so a ['found'] report, whether posted by a
    worker session, waiting in a queue of a run or already printed by the
    main thread, carries a candidate that derives to the target. *)
Theorem C1_found_candidate_derives_to_target
    (v5 : string → string → string) (v4 : nat → N → string)
    (targetPrivate : string) (hardwareConcurrency : nat) :
  targetPublic v5 targetPrivate = v5 targetPrivate targetPrivate ∧
  (∀ (i : nat) (m : Start.msg) (k : nat) (r : Report.msg),
     r ∈ (WorkerTs.session v5 (v4 i) m k).2 → Report.type r = "found" →
     ∃ c, Report.private r = Some c ∧ v5 c c = Start.targetPublic m) ∧
  (∀ (es : list event) (i : nat) (nd : node) (r : Report.msg),
     pool (run v5 v4 targetPrivate hardwareConcurrency es) !! i = Some nd →
     r ∈ outbox nd → Report.type r = "found" →
     ∃ c, Report.private r = Some c ∧ v5 c c = targetPublic v5 targetPrivate) ∧
  (∀ (es : list event) (p : option string),
     Main.PrivateUuid p
       ∈ Main.stdout (main (run v5 v4 targetPrivate hardwareConcurrency es)) →
     ∃ c, p = Some c ∧ v5 c c = targetPublic v5 targetPrivate).
Proof.
  split; [reflexivity |]. split; [| split].
  - intros i m k r Hr Hty.
    pose proof (WorkerFacts.session_spec v5 (v4 i) m k) as Hs.
    destruct (WorkerTs.session v5 (v4 i) m k) as [w posted]. cbn [fst snd] in *.
    inversion Hs as [c d Ht Hw Hc Hd Hno | c q d Hq Ht Hw Hc Hd Hno Hv]; subst.
    + apply WorkerFacts.elem_of_progress_upto in Hr as (Hp & _). congruence.
    + apply elem_of_app in Hr as [Hr | Hr].
      * apply WorkerFacts.elem_of_progress_upto in Hr as (Hp & _). congruence.
      * apply list_elem_of_singleton in Hr as ->. cbn. eauto.
  - intros es i nd r Hnd Hr Hty.
    destruct (SystemFacts.run_inv v5 v4 targetPrivate hardwareConcurrency es)
      as ((_ & _ & Hall) & _ & _).
    destruct (Hall i nd Hnd) as (t & _ & Hok).
    destruct Hok as [Ht0 | c ts d rs Htp Hwid Hc Hts Hch]; cbn in Hr.
    + by apply elem_of_nil in Hr.
    + destruct (chain_elem _ _ _ _ _ _ _ Hch Hr) as (n & _ & _ & [Hp | (_ & Hf)]).
      * congruence.
      * exact Hf.
  - intros es p Hp.
    destruct (SystemFacts.run_inv v5 v4 targetPrivate hardwareConcurrency es)
      as (_ & Hprint & _).
    by apply Hprint.
Qed.

(** In the sample run the report waiting in worker 0's queue after its
    third batch carries the secret. *)
Lemma C1_sample :
  ∃ c, Some Sample.secret = Some c ∧
       Sample.v5 c c = targetPublic Sample.v5 Sample.secret.
Proof.
  refine (proj1 (proj2 (proj2
            (C1_found_candidate_derives_to_target Sample.v5 Sample.v4
               Sample.secret 2)))
          [WorkerMessage 0; WorkerTimeout 0; WorkerTimeout 0; Deliver 0; Deliver 0]
          0%nat _
          {| Report.type := "found"; Report.workerId := 0;
             Report.private := Some Sample.secret; Report.checked := "250001" |}
          _ _ _).
  - vm_compute. reflexivity.
  - cbn [outbox]. apply list_elem_of_singleton. reflexivity.
  - reflexivity.
Defined.

(** C2. When a draw matches, the worker posts its ['found'] report at
    that draw, part way through the batch and with nothing drawn after it.
    In the life of a worker a ['found'] report is the last thing posted and
    comes after progress reports only, no further batch is scheduled, and
    later timer callbacks change nothing. *)
Theorem C2_found_is_posted_once_and_last
    (v5 : string → string → string) (v4 : N → string)
    (m : Start.msg) (k : nat) :
  (∀ (q : nat) (j : N),
     (q ≤ k)%nat →
     (N.of_nat q * 100000 ≤ j < N.of_nat (S q) * 100000)%N →
     WorkerSpec.no_match v5 v4 (Start.targetPublic m) 0 j →
     v5 (v4 j) (v4 j) = Start.targetPublic m →
     (WorkerTs.session v5 v4 m k).2
     = WorkerSpec.progress_upto (Start.workerId m) q ++
       [{| Report.type := "found"; Report.workerId := Start.workerId m;
           Report.private := Some (v4 j);
           Report.checked := Js.bigint_toString (Z.of_N j + 1) |}] ∧
     WorkerTs.draws (WorkerTs.session v5 v4 m k).1 = N.succ j) ∧
  (∀ (pre post : list Report.msg) (f : Report.msg),
     (WorkerTs.session v5 v4 m k).2 = pre ++ f :: post →
     Report.type f = "found" →
     post = [] ∧
     Forall (λ r, Report.type r = "progress") pre ∧
     WorkerTs.timers (WorkerTs.session v5 v4 m k).1 = [] ∧
     Report.private f
     = Some (v4 (N.pred (WorkerTs.draws (WorkerTs.session v5 v4 m k).1))) ∧
     Report.checked f
     = Js.bigint_toString (Z.of_N (WorkerTs.draws (WorkerTs.session v5 v4 m k).1)) ∧
     (∀ k', (k ≤ k')%nat →
            WorkerTs.session v5 v4 m k' = WorkerTs.session v5 v4 m k)).
Proof.
  split.
  - intros q j Hq Hj Hbefore Hat.
    destruct (WorkerFacts.session_finds v5 v4 m k q j) as (Hposted & Hdraws & _);
      done.
  - intros pre post f Hsplit Hty.
    pose proof (WorkerFacts.session_quiet v5 v4 m k) as Hquiet.
    pose proof (WorkerFacts.session_spec v5 v4 m k) as Hs.
    destruct (WorkerTs.session v5 v4 m k) as [w posted]. cbn [fst snd] in *.
    revert Hsplit.
    inversion Hs as [c d Ht Hw Hc Hd Hno | c q d Hq Ht Hw Hc Hd Hno Hv]; subst;
      intros Hsplit.
    + assert (Hin : f ∈ WorkerSpec.progress_upto (Start.workerId m) (S k))
        by (rewrite Hsplit; apply elem_of_app; right; apply elem_of_cons; by left).
      apply WorkerFacts.elem_of_progress_upto in Hin as (Hp & _). congruence.
    + assert (Hps : Forall (λ r, Report.type r = "progress")
                      (WorkerSpec.progress_upto (Start.workerId m) q)).
      { apply Forall_forall. intros r Hr.
        by apply WorkerFacts.elem_of_progress_upto in Hr as (Hp & _). }
      destruct (WorkerFacts.split_at_found _ _ _ _ _ Hps Hty Hsplit)
        as (-> & -> & ->).
      cbn. repeat split; try done.
      intros k' Hk. by apply Hquiet.
Qed.

(** Worker 0 of the sample finds the secret half way through its third
    batch. *)
Lemma C2_sample :
  (WorkerTs.session Sample.v5 (Sample.v4 0) (Sample.start 0) 2).2
  = WorkerSpec.progress_upto 0 2 ++
    [{| Report.type := "found"; Report.workerId := 0;
        Report.private := Some Sample.secret; Report.checked := "250001" |}] ∧
  WorkerTs.draws (WorkerTs.session Sample.v5 (Sample.v4 0) (Sample.start 0) 2).1
  = 250001%N ∧
  WorkerTs.timers (WorkerTs.session Sample.v5 (Sample.v4 0) (Sample.start 0) 2).1
  = [].
Proof.
  pose proof (C2_found_is_posted_once_and_last Sample.v5 (Sample.v4 0)
                (Sample.start 0) 2) as [Hfinds Hlast].
  destruct (Hfinds 2%nat 250000%N) as [Hposted Hdraws].
  - lia.
  - lia.
  - intros i Hi. unfold Sample.v4. cbn [Nat.eqb andb].
    destruct (N.eqb_spec i 250000); [lia | discriminate].
  - reflexivity.
  - split; [exact Hposted |]. split; [exact Hdraws |].
    destruct (Hlast (WorkerSpec.progress_upto 0 2) []
                {| Report.type := "found"; Report.workerId := 0;
                   Report.private := Some Sample.secret;
                   Report.checked := "250001" |} Hposted eq_refl)
      as (_ & _ & Hts & _).
    exact Hts.
Defined.

(** C3. Calling [stopAll] a second time right after the first does nothing,
    the first call having ended the process: the two calls together behave
    as one and print one closing block.  Over a whole run, whatever stop
    triggers arrive and in whatever order, the closing block has been
    printed once if the process is over and not at all if it lives. *)
Theorem C3_stopAll_twice_prints_one_summary
    (v5 : string → string → string) (v4 : nat → N → string)
    (targetPrivate : string) (hardwareConcurrency : nat) :
  (∀ s : Main.state,
     (Main.stopAll ;; Main.stopAll) s = Main.stopAll s ∧
     Main.summaries ((Main.stopAll ;; Main.stopAll) s).2
     = S (Main.summaries s)) ∧
  (∀ es : list event,
     Main.summaries (main (run v5 v4 targetPrivate hardwareConcurrency es))
     = match process (run v5 v4 targetPrivate hardwareConcurrency es) with
       | Live => 0%nat
       | _ => 1%nat
       end).
Proof.
  split.
  - intros s.
    assert (Heq : (Main.stopAll ;; Main.stopAll) s = Main.stopAll s).
    { unfold mbind at 1. unfold Main.proc_bind.
      by rewrite MainFacts.stopAll_eq. }
    split; [done |].
    rewrite Heq, MainFacts.stopAll_eq. apply MainFacts.summaries_stopped.
  - intros es.
    destruct (SystemFacts.run_inv v5 v4 targetPrivate hardwareConcurrency es)
      as (_ & _ & Hstat).
    unfold SystemSpec.status_ok in Hstat.
    destruct (process (run v5 v4 targetPrivate hardwareConcurrency es));
      [| | done].
    + by destruct Hstat as (_ & _ & _ & _ & ->).
    + by destruct Hstat as (_ & _ & _ & _ & ->).
Qed.

(** C4. Once [stopAll] has run the process is over, and no event that
    comes later, a report from a worker included, changes anything: table,
    flags and output stay as they were. *)
Theorem C4_nothing_is_processed_after_stop
    (v5 : string → string → string) (v4 : nat → N → string)
    (targetPrivate : string) (hardwareConcurrency : nat)
    (es es' : list event) :
  process (run v5 v4 targetPrivate hardwareConcurrency es) ≠ Live →
  run v5 v4 targetPrivate hardwareConcurrency (es ++ es')
  = run v5 v4 targetPrivate hardwareConcurrency es ∧
  (∀ s : Main.state, (Main.stopAll s).1 = Main.Exit 0) ∧
  (∀ (s : state) (h : Main.proc unit) (code : Z),
     (h (main s)).1 = Main.Exit code → process (dispatch h s) ≠ Live).
Proof.
  intros Hover. split; [| split].
  - rewrite SystemFacts.run_append. by apply SystemFacts.steps_not_live.
  - intros s. by rewrite MainFacts.stopAll_eq.
  - intros s h code Hh. unfold dispatch.
    destruct (h (main s)) as [[[] | c | err] m']; cbn in *; congruence.
Qed.

(** In the sample run, reports and ticks that come after the ['found']
    report has stopped the process leave the state as it was. *)
Lemma C4_sample :
  Sample.system (Sample.hit ++ [Deliver 1; Interval; Sigint; WorkerTimeout 1])
  = Sample.system Sample.hit ∧
  (∀ s : Main.state, (Main.stopAll s).1 = Main.Exit 0) ∧
  (∀ (s : state) (h : Main.proc unit) (code : Z),
     (h (main s)).1 = Main.Exit code → process (dispatch h s) ≠ Live).
Proof.
  apply (C4_nothing_is_processed_after_stop Sample.v5 Sample.v4 Sample.secret 2
           Sample.hit [Deliver 1; Interval; Sigint; WorkerTimeout 1]).
  vm_compute. discriminate.
Defined.

(** C5. Along every run the sum of the table never goes down from one
    event to the next, and no entry of it does.  The total is a full sum over
    the per-worker entries: [reduce] adds up every element present, the table
    of a run holds exactly one element per worker, and the total of a run is
    the sum of those.  Both the status line and the closing block store and
    show that sum taken afresh, whatever total was stored before. *)
Theorem C5_table_sum_is_monotone_and_recomputed
    (v5 : string → string → string) (v4 : nat → N → string)
    (targetPrivate : string) (hardwareConcurrency : nat) :
  (∀ (es : list event) (e : event),
     table_sum (run v5 v4 targetPrivate hardwareConcurrency es)
     ≤ table_sum (run v5 v4 targetPrivate hardwareConcurrency (es ++ [e]))) ∧
  (∀ es es' : list event,
     table_sum (run v5 v4 targetPrivate hardwareConcurrency es)
     ≤ table_sum (run v5 v4 targetPrivate hardwareConcurrency (es ++ es'))) ∧
  (∀ s : Main.state,
     Main.running s = true →
     Main.tick s = (Main.Return tt, MainSpec.ticked s) ∧
     Main.totalChecked (MainSpec.ticked s) = Js.reduce_add (Main.workerProgress s) ∧
     Main.stdout (MainSpec.ticked s)
     = Main.stdout s ++
       [Main.CarriageReturn; Main.Status (Js.reduce_add (Main.workerProgress s))]) ∧
  (∀ s : Main.state,
     Main.stopAll s = (Main.Exit 0, MainSpec.stopped s) ∧
     Main.totalChecked (MainSpec.stopped s) = Js.reduce_add (Main.workerProgress s) ∧
     Main.TotalChecked (Js.reduce_add (Main.workerProgress s))
       ∈ Main.stdout (MainSpec.stopped s)) ∧
  (∀ a : Js.array, Js.reduce_add a = JsSpec.sum (JsSpec.elements a)) ∧
  (∀ es : list event,
     let tbl := Main.workerProgress
                  (main (run v5 v4 targetPrivate hardwareConcurrency es)) in
     length (JsSpec.elements tbl) = WORKER_COUNT hardwareConcurrency ∧
     (∀ i : nat, (i < WORKER_COUNT hardwareConcurrency)%nat →
        is_Some (Js.get tbl (Z.of_nat i)) ∧
        JsSpec.elements tbl !! i = Js.get tbl (Z.of_nat i)) ∧
     table_sum (run v5 v4 targetPrivate hardwareConcurrency es)
     = JsSpec.sum (JsSpec.elements tbl)) ∧
  (∀ (es : list event) (e : event) (k t : Z),
     Js.get (Main.workerProgress
               (main (run v5 v4 targetPrivate hardwareConcurrency es))) k
     = Some t →
     ∃ t', Js.get (Main.workerProgress
                     (main (run v5 v4 targetPrivate hardwareConcurrency
                              (es ++ [e])))) k = Some t' ∧
           t ≤ t') ∧
  (∀ (s : Main.state) (x : Z),
     Main.running s = true →
     (Main.tick (Main.set_totalChecked x s)).2 = (Main.tick s).2 ∧
     Main.totalChecked (Main.tick s).2
     = JsSpec.sum (JsSpec.elements (Main.workerProgress s)) ∧
     Main.stdout (Main.tick s).2
     = Main.stdout s ++
       [Main.CarriageReturn;
        Main.Status (JsSpec.sum (JsSpec.elements (Main.workerProgress s)))]) ∧
  (∀ (s : Main.state) (x : Z),
     (Main.stopAll (Main.set_totalChecked x s)).2 = (Main.stopAll s).2 ∧
     Main.totalChecked (Main.stopAll s).2
     = JsSpec.sum (JsSpec.elements (Main.workerProgress s)) ∧
     Main.TotalChecked (JsSpec.sum (JsSpec.elements (Main.workerProgress s)))
       ∈ Main.stdout (Main.stopAll s).2).
Proof.
  assert (Hone : ∀ (es : list event) (e : event),
     table_sum (run v5 v4 targetPrivate hardwareConcurrency es)
     ≤ table_sum (run v5 v4 targetPrivate hardwareConcurrency (es ++ [e]))).
  { intros es e. rewrite SystemFacts.run_snoc.
    apply (SystemFacts.step_table_mono v5 v4 targetPrivate hardwareConcurrency).
    apply SystemFacts.run_inv. }
  assert (Hshown : ∀ s : Main.state,
     Main.TotalChecked (Js.reduce_add (Main.workerProgress s))
       ∈ Main.stdout (MainSpec.stopped s)).
  { intros s. cbn. apply elem_of_app. right. unfold MainSpec.summary_lines. cbn.
    do 3 apply list_elem_of_further. apply list_elem_of_here. }
  split; [exact Hone |].
  split; [| split; [| split; [| split; [| split; [| split; [| split]]]]]].
  - intros es es'. induction es' as [| e es' IH] using rev_ind.
    + rewrite app_nil_r. lia.
    + rewrite app_assoc. etrans; [exact IH | apply Hone].
  - intros s Hrun. split; [by apply MainFacts.tick_running |]. done.
  - intros s. split; [apply MainFacts.stopAll_eq |]. split; [done |].
    apply Hshown.
  - apply JsFacts.reduce_add_elements.
  - intros es tbl. subst tbl.
    destruct (SystemFacts.run_inv v5 v4 targetPrivate hardwareConcurrency es)
      as ((Hlen & Hpl & Hall) & _ & _).
    assert (Hsome : ∀ i : nat, (i < WORKER_COUNT hardwareConcurrency)%nat →
      is_Some (Js.get (Main.workerProgress
                 (main (run v5 v4 targetPrivate hardwareConcurrency es)))
                 (Z.of_nat i))).
    { intros i Hi.
      destruct (lookup_lt_is_Some_2
                  (pool (run v5 v4 targetPrivate hardwareConcurrency es)) i)
        as [nd Hnd]; [lia |].
      destruct (Hall i nd Hnd) as (t & Ht & _). by exists t. }
    destruct (JsFacts.elements_full _ _ Hlen Hsome) as [Hn Hget].
    split; [done |]. split.
    + intros i Hi. split; [by apply Hsome | by apply Hget].
    + apply JsFacts.reduce_add_elements.
  - intros es e k t Hk. rewrite SystemFacts.run_snoc.
    apply (SystemFacts.step_entry_mono v5 v4 targetPrivate hardwareConcurrency);
      [apply SystemFacts.run_inv | done].
  - intros s x Hrun.
    rewrite (MainFacts.tick_running s) by done.
    rewrite (MainFacts.tick_running (Main.set_totalChecked x s)) by done.
    cbn [snd]. split; [done |].
    rewrite <- JsFacts.reduce_add_elements. done.
  - intros s x. rewrite !MainFacts.stopAll_eq. cbn [snd].
    split; [done |]. rewrite <- JsFacts.reduce_add_elements.
    split; [done | apply Hshown].
Qed.

(** C6. An interrupt runs the same [stopAll] as a ['found'] report does,
    only with [found] still false: from a live process it prints the closing
    block with the not-found line and exits with code 0.  A ['found'] report
    exits with code 0 as well, and no run ever ends otherwise. *)
Theorem C6_interrupt_reports_not_found_and_exits_0
    (v5 : string → string → string) (v4 : nat → N → string)
    (targetPrivate : string) (hardwareConcurrency : nat) (es : list event) :
  process (run v5 v4 targetPrivate hardwareConcurrency es) = Live →
  let s := run v5 v4 targetPrivate hardwareConcurrency es in
  let s' := run v5 v4 targetPrivate hardwareConcurrency (es ++ [Sigint]) in
  process s' = Exited 0 ∧
  Main.found (main s') = false ∧
  Main.stdout (main s')
  = Main.stdout (main s) ++
    [Main.Blank; Main.Stopping; Main.Blank; Main.Blank; Main.FinalStatistics;
     Main.TotalChecked (table_sum s); Main.TotalTime; Main.AvgSpeed;
     Main.NotFound; Main.Blank] ∧
  (∀ m : Main.state,
     Main.on_sigint m = Main.stopAll (MainSpec.interrupted m) ∧
     (Main.stopAll m).1 = Main.Exit 0) ∧
  (∀ (m : Main.state) (r : Report.msg) (v : Z),
     Report.type r = "found" → Js.BigInt (Report.checked r) = Some v →
     Main.onmessage r m
     = Main.stopAll (MainSpec.announced (Report.private r) v m)) ∧
  (∀ es' : list event,
     process (run v5 v4 targetPrivate hardwareConcurrency es') = Live ∨
     process (run v5 v4 targetPrivate hardwareConcurrency es') = Exited 0).
Proof.
  intros Hlive s s'.
  destruct (SystemFacts.run_inv v5 v4 targetPrivate hardwareConcurrency es)
    as (_ & _ & Hstat).
  unfold SystemSpec.status_ok in Hstat. fold s in Hlive, Hstat.
  rewrite Hlive in Hstat. destruct Hstat as (Hrun & Hfound & _).
  assert (Hs' : s' = {| main := MainSpec.stopped (MainSpec.interrupted (main s));
                        process := Exited 0; pool := pool s |}).
  { unfold s'. rewrite SystemFacts.run_snoc. fold s.
    unfold step. rewrite Hlive. unfold dispatch.
    by rewrite MainFacts.on_sigint_eq. }
  rewrite Hs'. cbn [process main].
  split; [done |]. split; [done |]. split; [| split; [| split]].
  - cbn. unfold MainSpec.summary_lines. cbn. rewrite Hfound.
    rewrite <- !app_assoc. reflexivity.
  - intros m. rewrite MainFacts.on_sigint_eq, !MainFacts.stopAll_eq. done.
  - intros m r v Hty Hv.
    by rewrite (MainFacts.onmessage_found r v), MainFacts.stopAll_eq.
  - intros es'.
    destruct (SystemFacts.run_inv v5 v4 targetPrivate hardwareConcurrency es')
      as (_ & _ & Hstat').
    unfold SystemSpec.status_ok in Hstat'.
    destruct (process (run v5 v4 targetPrivate hardwareConcurrency es'))
      as [| code | err]; [by left | | done].
    destruct Hstat' as (-> & _). by right.
Qed.

(** Interrupting the sample run while both workers are searching. *)
Lemma C6_sample :
  process (Sample.system [WorkerMessage 0; WorkerMessage 1; Deliver 1; Sigint])
  = Exited 0 ∧
  Main.stdout (main (Sample.system
                       [WorkerMessage 0; WorkerMessage 1; Deliver 1; Sigint]))
  = [Main.Blank; Main.Stopping; Main.Blank; Main.Blank; Main.FinalStatistics;
     Main.TotalChecked 100000; Main.TotalTime; Main.AvgSpeed;
     Main.NotFound; Main.Blank].
Proof.
  pose proof (C6_interrupt_reports_not_found_and_exits_0 Sample.v5 Sample.v4
                Sample.secret 2 [WorkerMessage 0; WorkerMessage 1; Deliver 1])
    as H.
  destruct H as (Hexit & _ & Hout & _).
  - vm_compute. reflexivity.
  - split; [exact Hexit |].
    etrans; [exact Hout |]. vm_compute. reflexivity.
Defined.

(** C7 as stated fails: worker 1 of the sample, waiting after its first
    batch, runs its next batch whatever message it is sent in between. *)
Lemma C7_no_message_stops_a_worker :
  ¬ ∃ stop : Start.msg,
      WorkerSpec.honours_stop Sample.v5 (Sample.v4 1) stop
        (WorkerTs.session Sample.v5 (Sample.v4 1) (Sample.start 1) 0).1.
Proof.
  intros (stop & Hposted & _).
  assert (Hw : (WorkerTs.session Sample.v5 (Sample.v4 1) (Sample.start 1) 0).1
               = {| WorkerTs.closures :=
                      [{| WorkerTs.targetPublic := "s/s"; WorkerTs.workerId := 1;
                          WorkerTs.checked := 100000; WorkerTs.batchCount := 1 |}];
                    WorkerTs.timers := [0%nat];
                    WorkerTs.draws := 100000 |})
    by (vm_compute; reflexivity).
  rewrite Hw in Hposted. clear Hw.
  cbn [WorkerTs.step] in Hposted.
  match type of Hposted with
  | context [WorkerTs.onmessage _ _ ?m ?w] =>
      destruct (WorkerFacts.onmessage_frame Sample.v5 (Sample.v4 1) m w)
        as ([ts Hts] & Hlen);
      destruct (WorkerTs.onmessage Sample.v5 (Sample.v4 1) m w) as [w' posted]
  end.
  cbn [fst snd WorkerTs.timers WorkerTs.closures length app] in *.
  rewrite Hts in Hposted.
  match type of Hposted with
  | (WorkerTs.checkBatch _ _ ?id ?w0).2 = _ =>
      destruct (WorkerFacts.checkBatch_frame Sample.v5 (Sample.v4 1) id w0)
        as (Hone & _)
  end.
  - cbn. apply lookup_lt_is_Some. lia.
  - rewrite Hposted in Hone. discriminate.
Qed.

(** C7, amended.  A worker has no stop message and looks for none.  Every
    message it receives opens one more batch loop and leaves the pending
    timers pending; a batch that ends without a match always schedules the
    next one, and a batch that ends on a match schedules nothing.  What ends
    a searching worker from outside is [terminate()]: a worker whose handle
    is terminated, or whose process is over, runs no task at all, and
    [stopAll] terminates every handle. *)
Theorem C7_loop_ends_on_match_or_terminate
    (v5 : string → string → string) (v4 : nat → N → string) :
  (∀ (i : nat) (m : Start.msg) (w : WorkerTs.state),
     WorkerTs.timers w `prefix_of` WorkerTs.timers (WorkerTs.onmessage v5 (v4 i) m w).1 ∧
     length (WorkerTs.closures (WorkerTs.onmessage v5 (v4 i) m w).1)
     = S (length (WorkerTs.closures w))) ∧
  (∀ (i id : nat) (w : WorkerTs.state) (c : WorkerTs.closure) (d : N) (chk : Z),
     WorkerTs.closures w !! id = Some c →
     WorkerTs.for_loop v5 (v4 i) (Z.to_nat WorkerTs.BATCH_SIZE)
       (WorkerTs.targetPublic c) (WorkerTs.draws w) (WorkerTs.checked c)
     = (WorkerTs.Exhausted, d, chk) →
     WorkerTs.timers (WorkerTs.checkBatch v5 (v4 i) id w).1
     = WorkerTs.timers w ++ [id] ∧
     (WorkerTs.checkBatch v5 (v4 i) id w).2 = [WorkerTs.progress_msg c chk]) ∧
  (∀ (i id : nat) (w : WorkerTs.state) (c : WorkerTs.closure)
     (cand : string) (d : N) (chk : Z),
     WorkerTs.closures w !! id = Some c →
     WorkerTs.for_loop v5 (v4 i) (Z.to_nat WorkerTs.BATCH_SIZE)
       (WorkerTs.targetPublic c) (WorkerTs.draws w) (WorkerTs.checked c)
     = (WorkerTs.Matched cand, d, chk) →
     WorkerTs.timers (WorkerTs.checkBatch v5 (v4 i) id w).1 = WorkerTs.timers w ∧
     (WorkerTs.checkBatch v5 (v4 i) id w).2 = [WorkerTs.found_msg c cand chk]) ∧
  (∀ (s : state) (i : nat),
     can_run s i = false →
     step v5 v4 s (WorkerMessage i) = s ∧ step v5 v4 s (WorkerTimeout i) = s) ∧
  (∀ (s : state) (i : nat) (h : Main.handle) (m' : Main.state),
     Main.stopAll (main s) = (Main.Exit 0, m') →
     Main.workers m' !! i = Some h → Main.terminated h = true).
Proof.
  split; [| split; [| split; [| split]]].
  - intros i m w. apply WorkerFacts.onmessage_frame.
  - intros i id w c d chk Hc Hl.
    by rewrite (WorkerFacts.checkBatch_exhausted v5 (v4 i) id w c d chk).
  - intros i id w c cand d chk Hc Hl.
    by rewrite (WorkerFacts.checkBatch_matched v5 (v4 i) id w c cand d chk).
  - intros s i Hcan. unfold step. rewrite Hcan.
    by destruct (process s).
  - intros s i h m' Hstop Hh.
    rewrite MainFacts.stopAll_eq in Hstop. injection Hstop as <-.
    cbn in Hh. rewrite list_lookup_fmap in Hh.
    destruct (Main.workers (main s) !! i); [| done].
    by injection Hh as <-.
Qed.

(** C8. The counter of a worker is an integer without bound that equals
    the number of draws made; every report carries it as decimal text that
    [BigInt] reads back to the same integer, the latest report giving the
    number of draws made so far exactly, and the main thread stores what it
    reads unchanged. *)
Theorem C8_checked_count_survives_the_message_boundary
    (v5 : string → string → string) (v4 : N → string)
    (m : Start.msg) (k : nat) :
  let w := (WorkerTs.session v5 v4 m k).1 in
  let posted := (WorkerTs.session v5 v4 m k).2 in
  (∀ n : Z, Js.BigInt (Js.bigint_toString n) = Some n) ∧
  (∃ c, WorkerTs.closures w = [c] ∧
        WorkerTs.checked c = Z.of_N (WorkerTs.draws w)) ∧
  (∀ r, r ∈ posted →
        ∃ n : Z, 0 < n ≤ Z.of_N (WorkerTs.draws w) ∧
                 Report.checked r = Js.bigint_toString n ∧
                 Js.BigInt (Report.checked r) = Some n) ∧
  (∃ r, last posted = Some r ∧
        Js.BigInt (Report.checked r) = Some (Z.of_N (WorkerTs.draws w))) ∧
  (∀ (s : Main.state) (r : Report.msg) (n : Z),
     Report.type r = "progress" → Report.checked r = Js.bigint_toString n →
     ∃ s', Main.onmessage r s = (Main.Return tt, s') ∧
           Js.get (Main.workerProgress s') (Report.workerId r) = Some n).
Proof.
  intros w posted. subst w posted.
  pose proof (WorkerFacts.session_spec v5 v4 m k) as Hs.
  destruct (WorkerTs.session v5 v4 m k) as [w posted]. cbn [fst snd] in *.
  split; [apply JsFacts.BigInt_toString |].
  assert (Hprog : ∀ (q : nat) (d : N) (r : Report.msg),
            (N.of_nat q * Z.to_N WorkerTs.BATCH_SIZE ≤ d)%N →
            r ∈ WorkerSpec.progress_upto (Start.workerId m) q →
            ∃ n : Z, 0 < n ≤ Z.of_N d ∧
                     Report.checked r = Js.bigint_toString n ∧
                     Js.BigInt (Report.checked r) = Some n).
  { intros q d r Hq Hr.
    apply WorkerFacts.elem_of_progress_upto in Hr as (_ & _ & j & Hj & Hck).
    exists (Z.of_nat j * WorkerTs.BATCH_SIZE).
    split; [| split; [done | rewrite Hck; apply JsFacts.BigInt_toString]].
    rewrite WorkerFacts.BATCH_SIZE_eq in *. lia. }
  inversion Hs as [c d Ht Hw Hc Hd Hno | c q d Hq Ht Hw Hc Hd Hno Hv]; subst w posted.
  - cbn [WorkerTs.closures WorkerTs.draws].
    split; [by exists c |]. split; [| split].
    + intros r Hr. apply (Hprog (S k)); [lia | done].
    + eexists. split; [apply WorkerFacts.last_progress_upto |]. cbn.
      replace (Z.of_N d) with (Z.of_nat (S k) * WorkerTs.BATCH_SIZE)
        by (rewrite WorkerFacts.BATCH_SIZE_eq in *; lia).
      apply JsFacts.BigInt_toString.
    + intros s r n Hty Hck. eexists. split.
      * apply (MainFacts.onmessage_progress r n); [done |].
        rewrite Hck. apply JsFacts.BigInt_toString.
      * cbn. apply JsFacts.get_set_eq.
  - cbn [WorkerTs.closures WorkerTs.draws].
    split; [by exists c |]. split; [| split].
    + intros r Hr. apply elem_of_app in Hr as [Hr | Hr].
      * apply (Hprog q); [lia | done].
      * apply list_elem_of_singleton in Hr as ->. exists (Z.of_N d). cbn.
        split; [lia |]. split; [done | apply JsFacts.BigInt_toString].
    + eexists. split; [apply last_snoc |]. cbn. apply JsFacts.BigInt_toString.
    + intros s r n Hty Hck. eexists. split.
      * apply (MainFacts.onmessage_progress r n); [done |].
        rewrite Hck. apply JsFacts.BigInt_toString.
      * cbn. apply JsFacts.get_set_eq.
Qed.

(** C9. Batches hold 100,000 candidates and the counter goes up by one per
    candidate: when none of the first [(k + 1) * 100,000] draws matches, the
    worker has, after its start message and [k] timer callbacks, posted
    [k + 1] progress reports, the j-th carrying [j * 100,000], and has made
    as many draws as its counter says. *)
Theorem C9_progress_carries_cumulative_batches
    (v5 : string → string → string) (v4 : N → string)
    (m : Start.msg) (k : nat) :
  WorkerSpec.no_match v5 v4 (Start.targetPublic m) 0 (N.of_nat (S k) * 100000) →
  WorkerTs.BATCH_SIZE = 100000 ∧
  (WorkerTs.session v5 v4 m k).2
  = (λ j : nat,
       {| Report.type := "progress"; Report.workerId := Start.workerId m;
          Report.private := None;
          Report.checked := Js.bigint_toString (Z.of_nat j * 100000) |})
    <$> seq 1 (S k) ∧
  last (WorkerTs.session v5 v4 m k).2
  = Some {| Report.type := "progress"; Report.workerId := Start.workerId m;
            Report.private := None;
            Report.checked := Js.bigint_toString (Z.of_nat (S k) * 100000) |} ∧
  ∃ c, WorkerTs.closures (WorkerTs.session v5 v4 m k).1 = [c] ∧
       WorkerTs.checked c = Z.of_nat (S k) * 100000 ∧
       WorkerTs.draws (WorkerTs.session v5 v4 m k).1 = (N.of_nat (S k) * 100000)%N.
Proof.
  intros Hnone. split; [reflexivity |].
  pose proof (WorkerFacts.session_spec v5 v4 m k) as Hs.
  destruct (WorkerTs.session v5 v4 m k) as [w posted]. cbn [fst snd] in *.
  pose proof WorkerFacts.BATCH_SIZE_eq as HB.
  inversion Hs as [c d Ht Hw Hc Hd Hno | c q d Hq Ht Hw Hc Hd Hno Hv]; subst w posted.
  - split; [reflexivity |]. split.
    + apply (WorkerFacts.last_progress_upto (Start.workerId m) k).
    + exists c. cbn. split; [done |]. rewrite HB in *. split; lia.
  - exfalso. apply (Hnone (N.pred d)); [| done].
    rewrite HB in *. lia.
Qed.

(** Worker 1 of the sample never draws the secret: two batches, two
    reports. *)
Lemma C9_sample :
  (WorkerTs.session Sample.v5 (Sample.v4 1) (Sample.start 1) 1).2
  = [{| Report.type := "progress"; Report.workerId := 1;
        Report.private := None; Report.checked := "100000" |};
     {| Report.type := "progress"; Report.workerId := 1;
        Report.private := None; Report.checked := "200000" |}].
Proof.
  destruct (C9_progress_carries_cumulative_batches Sample.v5 (Sample.v4 1)
              (Sample.start 1) 1) as (_ & Hposted & _).
  - intros i Hi. cbn. discriminate.
  - etrans; [exact Hposted |]. vm_compute. reflexivity.
Defined.

(** C10. Handling a report writes the table only if the report is a
    progress report, and then only at the sender's key: every other key
    reads as before, and a key already in range leaves the length alone.  A
    ['found'] report leaves the table as it is, so the total of the closing
    block it triggers is the sum of the table as it stood before the report,
    whatever count the report itself carries. *)
Theorem C10_only_progress_writes_the_senders_entry
    (r : Report.msg) (s : Main.state) :
  let s' := (Main.onmessage r s).2 in
  (Report.type r ≠ "progress" → Main.workerProgress s' = Main.workerProgress s) ∧
  (∀ j : Z, j ≠ Report.workerId r →
     Js.get (Main.workerProgress s') j = Js.get (Main.workerProgress s) j) ∧
  (0 ≤ Report.workerId r < Js.len (Main.workerProgress s) →
     Js.len (Main.workerProgress s') = Js.len (Main.workerProgress s)) ∧
  (Report.type r = "found" →
     Main.workerProgress s' = Main.workerProgress s ∧
     ∀ v : Z, Js.BigInt (Report.checked r) = Some v →
       Main.onmessage r s = (Main.Exit 0, s') ∧
       Main.totalChecked s' = Js.reduce_add (Main.workerProgress s) ∧
       Main.stdout s'
       = Main.stdout s ++
         [Main.Blank; Main.FoundIt; Main.PrivateUuid (Report.private r);
          Main.Checked v; Main.Blank; Main.Blank; Main.FinalStatistics;
          Main.TotalChecked (Js.reduce_add (Main.workerProgress s));
          Main.TotalTime; Main.AvgSpeed; Main.Blank]).
Proof.
  intros s'. subst s'.
  destruct (decide (Report.type r = "progress")) as [Hp | Hp];
    [| destruct (decide (Report.type r = "found")) as [Hf | Hf]];
    destruct (Js.BigInt (Report.checked r)) as [v |] eqn:Hv.
  - rewrite (MainFacts.onmessage_progress r v) by done. cbn.
    split; [done |]. split; [| split].
    + intros j Hj. by apply JsFacts.get_set_ne.
    + intros Hin. unfold Js.is_index.
      destruct (Z.leb_spec (Js.len (Main.workerProgress s)) (Report.workerId r));
        [lia |]. by rewrite andb_false_r.
    + intros Hf. congruence.
  - rewrite MainFacts.onmessage_progress_throw by done. cbn.
    repeat split; first [done | congruence].
  - rewrite (MainFacts.onmessage_found r v) by done. cbn.
    split; [done |]. split; [done |]. split; [done |].
    intros _. split; [done |]. intros v0 Hv0.
    injection Hv0 as <-. split; [done |]. split; [done |].
    rewrite <- !app_assoc. reflexivity.
  - rewrite MainFacts.onmessage_found_throw by done. cbn.
    repeat split; try done.
  - rewrite MainFacts.onmessage_other by done. cbn. repeat split; done.
  - rewrite MainFacts.onmessage_other by done. cbn. repeat split; done.
Qed.

(** In the sample run worker 0 had reported 200000 checks before it found
    the secret at its 250001st, and worker 1 had reported 100000: the
    closing block shows 300000. *)
Lemma C10_sample :
  Main.TotalChecked 300000 ∈ Main.stdout (main (Sample.system Sample.hit)) ∧
  Main.Checked 250001 ∈ Main.stdout (main (Sample.system Sample.hit)).
Proof.
  vm_compute.
  split; repeat first [apply list_elem_of_here | apply list_elem_of_further].
Qed.

End Claims.

(* ===================================================================== *)
(** ** More about the worker *)
(* ===================================================================== *)

Module WorkerMore.
Import WorkerTs WorkerSpec WorkerSpec2.

Section Facts.
Variable v5 : string -> string -> string.
Variable v4 : N -> string.

Lemma sum_checked_app (cs cs' : list closure) :
  sum_checked (cs ++ cs') = sum_checked cs + sum_checked cs'.
Proof.
  unfold sum_checked. induction cs as [| c0 cs IH]; cbn; [lia |].
  rewrite IH. lia.
Qed.

Lemma sum_checked_insert (cs : list closure) (id : nat) (c c' : closure) :
  cs !! id = Some c →
  sum_checked (<[id := c']> cs) = sum_checked cs - checked c + checked c'.
Proof.
  intros Hc.
  rewrite insert_take_drop by (by eapply lookup_lt_Some).
  rewrite <- (take_drop_middle cs id c Hc) at 3.
  rewrite !sum_checked_app.
  change (sum_checked (c' :: drop (S id) cs))
    with (checked c' + sum_checked (drop (S id) cs)).
  change (sum_checked (c :: drop (S id) cs))
    with (checked c + sum_checked (drop (S id) cs)).
  lia.
Qed.

Lemma sum_checked_snoc (cs : list closure) (c : closure) :
  sum_checked (cs ++ [c]) = sum_checked cs + checked c.
Proof. rewrite sum_checked_app. unfold sum_checked. cbn. lia. Qed.

Lemma checkBatch_tidy (id : nat) (w : state) :
  is_Some (closures w !! id) → id ∉ timers w →
  tidy w → tidy (checkBatch v5 v4 id w).1.
Proof.
  intros [c Hc] Hid (Hsum & Hnd & Hall).
  pose proof (WorkerFacts.for_loop_spec v5 v4 (Z.to_nat BATCH_SIZE)
                (targetPublic c) (draws w) (checked c)) as Hl.
  destruct (for_loop v5 v4 (Z.to_nat BATCH_SIZE) (targetPublic c) (draws w)
              (checked c)) as [[[cand |] d] chk] eqn:Hloop.
  - rewrite (WorkerFacts.checkBatch_matched v5 v4 id w c cand d chk) by done.
    destruct Hl as (Hd & _ & _ & _ & ->).
    split; [| split]; cbn.
    + rewrite (sum_checked_insert _ _ c) by done. cbn. lia.
    + done.
    + by rewrite length_insert.
  - rewrite (WorkerFacts.checkBatch_exhausted v5 v4 id w c d chk) by done.
    destruct Hl as (Hd & _ & ->).
    split; [| split]; cbn.
    + rewrite (sum_checked_insert _ _ c) by done. cbn. lia.
    + apply NoDup_app. split; [done |]. split; [| apply NoDup_singleton].
      intros x Hx Hx'. apply list_elem_of_singleton in Hx' as ->. done.
    + rewrite length_insert. apply Forall_app. split; [done |].
      apply Forall_singleton. by eapply lookup_lt_Some.
Qed.

Lemma step_tidy (e : event) (w : state) : tidy w → tidy (step v5 v4 e w).1.
Proof.
  intros Hw. pose proof Hw as (Hsum & Hnd & Hall).
  destruct e as [m |]; cbn [step].
  - unfold onmessage. apply checkBatch_tidy; cbn.
    + rewrite lookup_app_r by done. rewrite Nat.sub_diag. by eexists.
    + intros Hin. rewrite Forall_forall in Hall. apply Hall in Hin. lia.
    + split; [| split]; cbn.
      * rewrite sum_checked_snoc. cbn. lia.
      * done.
      * rewrite length_app. cbn. eapply Forall_impl; [exact Hall |].
        cbn. intros x Hx. lia.
  - destruct (timers w) as [| id rest] eqn:Hts; [exact Hw |].
    apply NoDup_cons in Hnd as [Hid Hnd].
    apply Forall_cons in Hall as [Hlt Hall].
    apply checkBatch_tidy; cbn; [by apply lookup_lt_is_Some | done | done].
Qed.

Lemma run_tidy (es : list event) (w : state) :
  tidy w → tidy (run v5 v4 es w).1.
Proof.
  revert w. induction es as [| e es IH]; intros w Hw; cbn [run]; [done |].
  pose proof (step_tidy e w Hw) as H1.
  destruct (step v5 v4 e w) as [w1 o1]. cbn [fst] in H1.
  specialize (IH w1 H1).
  by destruct (run v5 v4 es w1) as [w2 o2].
Qed.

Lemma checkBatch_posts_one (id : nat) (w : state) :
  is_Some (closures w !! id) → length (checkBatch v5 v4 id w).2 = 1%nat.
Proof. intros H. by destruct (WorkerFacts.checkBatch_frame v5 v4 id w H). Qed.

Lemma increasing_progress (wid : Z) (q a : nat) (tail : list Report.msg) :
  increasing (Z.of_nat (a + q) * BATCH_SIZE) tail →
  increasing (Z.of_nat a * BATCH_SIZE)
    (((λ j : nat,
         {| Report.type := "progress"; Report.workerId := wid;
            Report.private := None;
            Report.checked := Js.bigint_toString (Z.of_nat j * BATCH_SIZE) |})
      <$> seq (S a) q) ++ tail).
Proof.
  revert a. induction q as [| q IH]; intros a Htail; cbn [seq fmap list_fmap app].
  - by rewrite Nat.add_0_r in Htail.
  - exists (Z.of_nat (S a) * BATCH_SIZE). cbn [Report.checked].
    split; [apply JsFacts.BigInt_toString |].
    split; [rewrite WorkerFacts.BATCH_SIZE_eq; lia |].
    apply IH. by replace (S a + q)%nat with (a + S q)%nat by lia.
Qed.

Lemma whole_zero : whole 0.
Proof. by exists 0%nat. Qed.

Lemma whole_add (a b : Z) : whole a → whole b → whole (a + b).
Proof. intros [x ->] [y ->]. exists (x + y)%nat. lia. Qed.

Lemma checkBatch_whole (id : nat) (w : state) (c : closure) :
  closures w !! id = Some c → id ∉ timers w → whole (checked c) →
  on_schedule w →
  on_schedule (checkBatch v5 v4 id w).1 ∧
  Forall whole_report (checkBatch v5 v4 id w).2.
Proof.
  intros Hc Hid [a Ha] Hsched.
  pose proof (WorkerFacts.for_loop_spec v5 v4 (Z.to_nat BATCH_SIZE)
                (targetPublic c) (draws w) (checked c)) as Hl.
  destruct (for_loop v5 v4 (Z.to_nat BATCH_SIZE) (targetPublic c) (draws w)
              (checked c)) as [[[cand |] d] chk] eqn:Hloop.
  - rewrite (WorkerFacts.checkBatch_matched v5 v4 id w c cand d chk) by done.
    cbn [fst snd]. split.
    + intros id' c' Hc' Hin. cbn in Hc', Hin.
      destruct (decide (id' = id)) as [-> | Hne]; [done |].
      rewrite list_lookup_insert_ne in Hc' by done. by eapply Hsched.
    + apply Forall_singleton. intros Hty. discriminate.
  - rewrite (WorkerFacts.checkBatch_exhausted v5 v4 id w c d chk) by done.
    destruct Hl as (Hd & _ & Hchk).
    assert (Hw : chk = Z.of_nat (S a) * BATCH_SIZE).
    { rewrite Hchk, Ha, Hd, WorkerFacts.BATCH_SIZE_eq. lia. }
    cbn [fst snd]. split.
    + intros id' c' Hc' Hin. cbn in Hc', Hin.
      destruct (decide (id' = id)) as [-> | Hne].
      * rewrite list_lookup_insert_eq in Hc' by (by eapply lookup_lt_Some).
        injection Hc' as <-. by exists (S a).
      * rewrite list_lookup_insert_ne in Hc' by done.
        apply elem_of_app in Hin as [Hin | Hin]; [by eapply Hsched |].
        by apply list_elem_of_singleton in Hin.
    + apply Forall_singleton. intros _. exists (S a). cbn. by rewrite Hw.
Qed.

Lemma step_whole (e : event) (w : state) :
  tidy w → on_schedule w →
  on_schedule (step v5 v4 e w).1 ∧ Forall whole_report (step v5 v4 e w).2.
Proof.
  intros (Hsum & Hnd & Hall) Hsched. destruct e as [m |]; cbn [step].
  - unfold onmessage.
    match goal with
    | |- context [checkBatch _ _ ?id ?w0] =>
        apply (checkBatch_whole id w0
                 {| targetPublic := Start.targetPublic m;
                    workerId := Start.workerId m;
                    checked := 0; batchCount := 0 |})
    end; cbn.
    + rewrite lookup_app_r by done. by rewrite Nat.sub_diag.
    + intros Hin. rewrite Forall_forall in Hall. apply Hall in Hin. lia.
    + apply whole_zero.
    + intros id c Hc Hin. cbn in Hc, Hin.
      rewrite Forall_forall in Hall. pose proof (Hall id Hin) as Hlt.
      rewrite lookup_app_l in Hc by done. by eapply Hsched.
  - destruct (timers w) as [| id rest] eqn:Hts.
    + cbn. split; [| apply Forall_nil_2].
      intros id c _ Hin. rewrite Hts in Hin. by apply elem_of_nil in Hin.
    + apply NoDup_cons in Hnd as [Hid Hnd].
      apply Forall_cons in Hall as [Hlt Hall].
      destruct (lookup_lt_is_Some_2 (closures w) id Hlt) as [c Hc].
      apply (checkBatch_whole id _ c); cbn; [done | done | |].
      * eapply Hsched; [done |]. rewrite Hts. by left.
      * intros id' c' Hc' Hin. eapply Hsched; [done |].
        rewrite Hts. by right.
Qed.

End Facts.
End WorkerMore.

(* ===================================================================== *)
(** ** More about a run *)
(* ===================================================================== *)

Module SystemMore.
Import System SystemSpec SystemSpec2.

Lemma foldl_add_present_zero (m : gmap Z Z) (ks : list Z) (acc : Z) :
  (∀ k, k ∈ ks → m !! k = Some 0 ∨ m !! k = None) →
  foldl (Js.add_present m) acc ks = acc.
Proof.
  revert acc. induction ks as [| k ks IH]; intros acc Hks; cbn; [done |].
  rewrite IH by (intros j Hj; apply Hks; by right).
  unfold Js.add_present.
  destruct (Hks k) as [-> | ->]; [by left | lia | done].
Qed.

Lemma reduce_add_fill (n : nat) : Js.reduce_add (Js.fill n 0) = 0.
Proof.
  unfold Js.reduce_add. apply foldl_add_present_zero.
  intros k _. cbn. rewrite JsFacts.fill_props_lookup.
  case_decide; [by left | by right].
Qed.

Lemma table_after_facts (n i k : nat) :
  (i < n)%nat →
  Js.len (table_after n i k) = Z.of_nat n ∧
  Js.get (table_after n i k) (Z.of_nat i)
  = Some (Z.of_nat k * WorkerTs.BATCH_SIZE) ∧
  Js.reduce_add (table_after n i k) = Z.of_nat k * WorkerTs.BATCH_SIZE.
Proof.
  intros Hi. induction k as [| k (Hlen & Hget & Hsum)].
  - split; [done |]. split; [apply JsFacts.get_fill; lia |].
    apply reduce_add_fill.
  - cbn [table_after].
    destruct (JsFacts.reduce_add_set (table_after n i k) (Z.of_nat i)
                (Z.of_nat (S k) * WorkerTs.BATCH_SIZE)
                (Z.of_nat k * WorkerTs.BATCH_SIZE)) as [Hs Hl]; [lia | done |].
    split; [congruence |]. split; [apply JsFacts.get_set_eq |].
    rewrite Hs, Hsum. lia.
Qed.

Lemma total_draws_snoc (p : list node) (nd : node) :
  total_draws (p ++ [nd])
  = total_draws p + Z.of_N (WorkerTs.draws (worker nd)).
Proof.
  unfold total_draws. induction p as [| nd0 p IH]; cbn; [lia |].
  rewrite IH. lia.
Qed.

(** A table whose entries stay below the counters of the workers sums to
    at most the draws of the pool. *)
Lemma reduce_le_total_draws (m : gmap Z Z) (p : list node) (n : nat) :
  (n ≤ length p)%nat →
  (∀ (i : nat) (nd : node), p !! i = Some nd →
     ∃ t, m !! Z.of_nat i = Some t ∧ t ≤ Z.of_N (WorkerTs.draws (worker nd))) →
  foldl (Js.add_present m) 0 (seqZ 0 (Z.of_nat n)) ≤ total_draws (take n p).
Proof.
  intros Hn Hall. induction n as [| n IH].
  - cbn. unfold total_draws. by rewrite take_0.
  - destruct (lookup_lt_is_Some_2 p n) as [nd Hnd]; [lia |].
    rewrite seqZ_S, foldl_app, (take_S_r _ _ nd Hnd), total_draws_snoc.
    cbn [foldl]. unfold Js.add_present at 1.
    destruct (Hall n nd Hnd) as (t & Ht & Hle).
    rewrite Z.add_0_l, Ht. specialize (IH ltac:(lia)). lia.
Qed.

Section Facts.
Variable v5 : string -> string -> string.
Variable v4 : nat -> N -> string.
Variable targetPrivate : string.
Variable hardwareConcurrency : nat.

Local Abbreviation COUNT := (WORKER_COUNT hardwareConcurrency).
Local Abbreviation run' := (run v5 v4 targetPrivate hardwareConcurrency).
Local Abbreviation pool0 := (spawn v5 targetPrivate <$> seq 0 COUNT).
Local Abbreviation start_msg i :=
  {| Start.targetPublic := targetPublic v5 targetPrivate;
     Start.workerId := Z.of_nat i |}.

Lemma node_entry_le (i : nat) (t : Z) (nd : node) :
  node_ok v5 targetPrivate i t nd →
  t ≤ Z.of_N (WorkerTs.draws (worker nd)) ∧
  Forall (λ r, Report.workerId r = Z.of_nat i) (outbox nd) ∧
  (length (inbox nd) + length (WorkerTs.closures (worker nd)) = 1)%nat ∧
  (length (WorkerTs.timers (worker nd))
   ≤ length (WorkerTs.closures (worker nd)))%nat.
Proof.
  intros [Ht | c ts d rs Htp Hwid Hc Hts Hch]; cbn.
  - split; [lia |]. split; [apply Forall_nil_2 | done].
  - split; [by eapply SystemFacts.chain_le |]. split.
    + apply Forall_forall. intros r Hr.
      by destruct (Claims.chain_elem _ _ _ _ _ _ _ Hch Hr) as (n & Hw & _).
    + split; [done |]. destruct Hts as [-> | ->]; cbn; lia.
Qed.

Lemma pool0_lookup (i : nat) :
  (i < COUNT)%nat → pool0 !! i = Some (spawn v5 targetPrivate i).
Proof.
  intros Hi. rewrite list_lookup_fmap, lookup_seq_lt by done. done.
Qed.

Lemma started_handle (n i : nat) :
  (i < n)%nat →
  Main.workers (Main.started n) !! i
  = Some {| Main.node := i; Main.terminated := false |}.
Proof.
  intros Hi. cbn. rewrite list_lookup_fmap, lookup_seq_lt by done. done.
Qed.

Lemma step_message_idle (u : N → string) (m : Start.msg) :
  WorkerTs.step v5 u (WorkerTs.Message m) WorkerTs.idle
  = WorkerTs.session v5 u m 0.
Proof. by rewrite WorkerFacts.session_0. Qed.

(** Worker [i] alone at work: its node holds the session so far, the rest
    of the system has not moved. *)
Lemma worker_phase (i q : nat) :
  (i < COUNT)%nat →
  run' (WorkerMessage i :: repeat (WorkerTimeout i) q)
  = {| main := Main.started COUNT; process := Live;
       pool := <[i := {| worker := (WorkerTs.session v5 (v4 i) (start_msg i) q).1;
                         inbox := [];
                         outbox := (WorkerTs.session v5 (v4 i) (start_msg i) q).2 |}]>
               pool0 |}.
Proof.
  intros Hi. induction q as [| q IH].
  - cbn [repeat]. unfold run. cbn [foldl]. unfold step, can_run.
    cbn [process main pool init].
    rewrite started_handle, pool0_lookup by done.
    cbn [Main.terminated negb inbox spawn].
    unfold worker_task. cbn [worker outbox spawn app].
    rewrite step_message_idle.
    by destruct (WorkerTs.session v5 (v4 i) (start_msg i) 0).
  - replace (WorkerMessage i :: repeat (WorkerTimeout i) (S q))
      with ((WorkerMessage i :: repeat (WorkerTimeout i) q) ++ [WorkerTimeout i])
      by (cbn [app repeat]; f_equal; symmetry; apply repeat_cons).
    rewrite SystemFacts.run_snoc, IH.
    unfold step, can_run. cbn [process main pool].
    rewrite started_handle by done. cbn [Main.terminated negb].
    rewrite list_lookup_insert_eq by (by rewrite length_fmap, length_seq).
    unfold worker_task. cbn [worker inbox outbox].
    rewrite WorkerFacts.session_S.
    destruct (WorkerTs.session v5 (v4 i) (start_msg i) q) as [w1 o1].
    cbn [fst snd].
    destruct (WorkerTs.step v5 (v4 i) WorkerTs.Timeout w1) as [w2 o2].
    unfold set_pool. cbn [main process pool fst snd].
    by rewrite list_insert_insert_eq.
Qed.

Lemma deliver_progress (s : state) (i : nat) (nd : node) (r : Report.msg)
    (rest : list Report.msg) (n : Z) :
  process s = Live → can_run s i = true → pool s !! i = Some nd →
  outbox nd = r :: rest →
  Report.type r = "progress" → Js.BigInt (Report.checked r) = Some n →
  step v5 v4 s (Deliver i)
  = {| main := Main.set_workerProgress
                 (Js.set (Main.workerProgress (main s)) (Report.workerId r) n)
                 (main s);
       process := Live;
       pool := <[i := {| worker := worker nd; inbox := inbox nd;
                         outbox := rest |}]> (pool s) |}.
Proof.
  intros Hlive Hcan Hnd Hout Hty Hn.
  unfold step. rewrite Hlive, Hcan, Hnd, Hout.
  unfold dispatch. cbn [main set_pool pool].
  by rewrite (MainFacts.onmessage_progress r n).
Qed.

Lemma deliver_found (s : state) (i : nat) (nd : node) (r : Report.msg)
    (rest : list Report.msg) (n : Z) :
  process s = Live → can_run s i = true → pool s !! i = Some nd →
  outbox nd = r :: rest →
  Report.type r = "found" → Js.BigInt (Report.checked r) = Some n →
  step v5 v4 s (Deliver i)
  = {| main := MainSpec.stopped (MainSpec.announced (Report.private r) n (main s));
       process := Exited 0;
       pool := <[i := {| worker := worker nd; inbox := inbox nd;
                         outbox := rest |}]> (pool s) |}.
Proof.
  intros Hlive Hcan Hnd Hout Hty Hn.
  unfold step. rewrite Hlive, Hcan, Hnd, Hout.
  unfold dispatch. cbn [main set_pool pool].
  by rewrite (MainFacts.onmessage_found r n).
Qed.

(** The main thread working through the first [k] progress reports of
    worker [i], nothing else happening. *)
Lemma delivery_phase (i : nat) (w : WorkerTs.state) (posted : list Report.msg)
    (q k : nat) :
  (i < COUNT)%nat → (k ≤ q)%nat →
  take q posted = WorkerSpec.progress_upto (Z.of_nat i) q →
  foldl (step v5 v4)
    {| main := Main.started COUNT; process := Live;
       pool := <[i := {| worker := w; inbox := []; outbox := posted |}]> pool0 |}
    (repeat (Deliver i) k)
  = {| main := Main.set_workerProgress (table_after COUNT i k) (Main.started COUNT);
       process := Live;
       pool := <[i := {| worker := w; inbox := [];
                         outbox := drop k posted |}]> pool0 |}.
Proof.
  intros Hi Hk Htake. induction k as [| k IH].
  - reflexivity.
  - replace (repeat (Deliver i) (S k))
      with (repeat (Deliver i) k ++ [Deliver i])
      by (symmetry; apply repeat_cons).
    rewrite foldl_app, IH by lia. cbn [foldl].
    set (r := {| Report.type := "progress"; Report.workerId := Z.of_nat i;
                 Report.private := None;
                 Report.checked :=
                   Js.bigint_toString (Z.of_nat (S k) * WorkerTs.BATCH_SIZE) |}).
    assert (Hr : posted !! k = Some r).
    { rewrite <- (lookup_take_lt posted q k) by lia. rewrite Htake.
      unfold WorkerSpec.progress_upto.
      rewrite list_lookup_fmap, lookup_seq_lt by lia. done. }
    rewrite (deliver_progress _ i
               {| worker := w; inbox := []; outbox := drop k posted |}
               r (drop (S k) posted) (Z.of_nat (S k) * WorkerTs.BATCH_SIZE)).
    + cbn [main pool worker inbox]. subst r. cbn [Report.workerId].
      by rewrite list_insert_insert_eq.
    + done.
    + unfold can_run. cbn [process main].
      change (Main.workers (Main.set_workerProgress (table_after COUNT i k)
                              (Main.started COUNT)))
        with (Main.workers (Main.started COUNT)).
      by rewrite started_handle.
    + cbn [pool].
      apply list_lookup_insert_eq. by rewrite length_fmap, length_seq.
    + cbn [outbox]. by apply drop_S.
    + done.
    + subst r. cbn [Report.checked]. apply JsFacts.BigInt_toString.
Qed.

Lemma foldl_add_present_whole (m : gmap Z Z) (ks : list Z) (acc : Z) :
  (∀ k t, m !! k = Some t → WorkerSpec2.whole t) → WorkerSpec2.whole acc →
  WorkerSpec2.whole (foldl (Js.add_present m) acc ks).
Proof.
  intros Hm. revert acc. induction ks as [| k ks IH]; intros acc Hacc; cbn;
    [done |].
  apply IH. unfold Js.add_present.
  destruct (m !! k) as [t |] eqn:Hk; [| done].
  apply WorkerMore.whole_add; [done | by eapply Hm].
Qed.

Lemma reduce_add_whole (a : Js.array) :
  (∀ k t, Js.get a k = Some t → WorkerSpec2.whole t) →
  WorkerSpec2.whole (Js.reduce_add a).
Proof.
  intros Ha. unfold Js.reduce_add.
  apply foldl_add_present_whole; [exact Ha | apply WorkerMore.whole_zero].
Qed.

Lemma shown_app (n : Z) (m m' : Main.state) (extra : list Main.output) :
  Main.stdout m' = Main.stdout m ++ extra → shown n m' →
  shown n m ∨ Main.Status n ∈ extra ∨ Main.TotalChecked n ∈ extra.
Proof.
  intros Hout [H | H]; rewrite Hout in H;
    apply elem_of_app in H as [H | H]; unfold shown; tauto.
Qed.

Lemma shown_summary (n : Z) (m : Main.state) :
  Main.Status n ∈ MainSpec.summary_lines m ∨
  Main.TotalChecked n ∈ MainSpec.summary_lines m →
  n = Js.reduce_add (Main.workerProgress m).
Proof.
  unfold MainSpec.summary_lines.
  intros [H | H]; destruct (Main.found m); cbn in H;
    repeat (apply elem_of_cons in H as [H | H];
            [first [discriminate | by injection H] |]);
    by apply elem_of_nil in H.
Qed.

Lemma shown_stopped (n : Z) (m : Main.state) :
  shown n (MainSpec.stopped m) →
  shown n m ∨ n = Js.reduce_add (Main.workerProgress m).
Proof.
  intros H.
  destruct (shown_app n m (MainSpec.stopped m) (MainSpec.summary_lines m) eq_refl H)
    as [Hm | Hs]; [by left | right].
  by apply shown_summary.
Qed.

Lemma shown_ticked (n : Z) (m : Main.state) :
  shown n (MainSpec.ticked m) →
  shown n m ∨ n = Js.reduce_add (Main.workerProgress m).
Proof.
  intros H.
  destruct (shown_app n m (MainSpec.ticked m)
              [Main.CarriageReturn;
               Main.Status (Js.reduce_add (Main.workerProgress m))] eq_refl H)
    as [Hm | [Hs | Hs]]; [by left | right | right];
    repeat (apply elem_of_cons in Hs as [Hs | Hs];
            [first [discriminate | by injection Hs] |]);
    by apply elem_of_nil in Hs.
Qed.

Lemma shown_no_total (n : Z) (m m' : Main.state) (extra : list Main.output) :
  Main.stdout m' = Main.stdout m ++ extra →
  Forall (λ o, match o with
               | Main.Status _ | Main.TotalChecked _ => False
               | _ => True
               end) extra →
  shown n m' → shown n m.
Proof.
  intros Hout Hex H.
  destruct (shown_app n m m' extra Hout H) as [Hm | [Hs | Hs]]; [done | |];
    rewrite Forall_forall in Hex; by apply Hex in Hs.
Qed.

(** Handling a report keeps what is stored and shown in whole batches. *)
Lemma onmessage_whole (r : Report.msg) (m : Main.state) :
  WorkerSpec2.whole_report r →
  (∀ k t, Js.get (Main.workerProgress m) k = Some t → WorkerSpec2.whole t) →
  (∀ n, shown n m → WorkerSpec2.whole n) →
  (∀ k t, Js.get (Main.workerProgress (Main.onmessage r m).2) k = Some t →
          WorkerSpec2.whole t) ∧
  (∀ n, shown n (Main.onmessage r m).2 → WorkerSpec2.whole n).
Proof.
  intros Hr Htbl Hshown.
  destruct (decide (Report.type r = "progress")) as [Hp | Hp];
    [| destruct (decide (Report.type r = "found")) as [Hf | Hf]];
    destruct (Js.BigInt (Report.checked r)) as [v |] eqn:Hv.
  - rewrite (MainFacts.onmessage_progress r v) by done. cbn [snd]. split.
    + intros k t. cbn [Main.workerProgress Main.set_workerProgress].
      destruct (decide (k = Report.workerId r)) as [-> | Hne].
      * rewrite JsFacts.get_set_eq. intros [= <-].
        destruct (Hr Hp) as [a Ha]. exists a.
        rewrite Ha, JsFacts.BigInt_toString in Hv. congruence.
      * rewrite JsFacts.get_set_ne by done. apply Htbl.
    + exact Hshown.
  - by rewrite MainFacts.onmessage_progress_throw.
  - rewrite (MainFacts.onmessage_found r v) by done. cbn [snd]. split.
    + exact Htbl.
    + intros n Hn. apply shown_stopped in Hn as [Hn | ->].
      * apply Hshown.
        apply (shown_no_total n m
                 (MainSpec.announced (Report.private r) v m)
                 [Main.Blank; Main.FoundIt;
                  Main.PrivateUuid (Report.private r); Main.Checked v]);
          [done | repeat constructor | exact Hn].
      * by apply reduce_add_whole.
  - rewrite MainFacts.onmessage_found_throw by done. cbn [snd]. split.
    + exact Htbl.
    + intros n Hn. apply Hshown.
      apply (shown_no_total n m
               (Main.write (Main.PrivateUuid (Report.private r))
                  (Main.write Main.FoundIt
                     (Main.write Main.Blank
                        (Main.set_running false (Main.set_found true m)))))
               [Main.Blank; Main.FoundIt; Main.PrivateUuid (Report.private r)]);
        [cbn; by rewrite <- !app_assoc | repeat constructor | exact Hn].
  - by rewrite MainFacts.onmessage_other.
  - by rewrite MainFacts.onmessage_other.
Qed.

Lemma dispatch_main (h : Main.proc unit) (s : state) :
  main (dispatch h s) = (h (main s)).2 ∧ pool (dispatch h s) = pool s.
Proof. unfold dispatch. by destruct (h (main s)) as [[[] | c | err] m']. Qed.

Lemma whole_batches_worker_task (s : state) (i : nat) (nd : node)
    (e : WorkerTs.event) (rest : list Start.msg) :
  whole_batches s → pool s !! i = Some nd →
  whole_batches (worker_task v5 v4 i nd e rest s).
Proof.
  intros (Htbl & Hshown & Hpool) Hnd. unfold worker_task.
  pose proof (proj1 (Forall_lookup _ _) Hpool i nd Hnd) as (Htidy & Hsched & Hout).
  pose proof (WorkerMore.step_tidy v5 (v4 i) e (worker nd) Htidy) as Ht'.
  pose proof (WorkerMore.step_whole v5 (v4 i) e (worker nd) Htidy Hsched)
    as [Hs' Hp'].
  destruct (WorkerTs.step v5 (v4 i) e (worker nd)) as [w' posted].
  cbn [fst snd] in *.
  split; [done |]. split; [done |]. cbn [pool set_pool].
  apply Forall_insert; [done |]. cbn.
  split; [done |]. split; [done |]. by apply Forall_app.
Qed.

(** Every event keeps the run in whole batches. *)
Lemma step_whole_batches (s : state) (e : event) :
  whole_batches s → whole_batches (step v5 v4 s e).
Proof.
  intros Hs. unfold step.
  destruct (process s) eqn:Hlive; [| done | done].
  destruct e as [i | i | i | |].
  - destruct (can_run s i); [| done].
    destruct (pool s !! i) as [nd |] eqn:Hnd; [| done].
    destruct (inbox nd) as [| m rest] eqn:Hin; [done |].
    by apply whole_batches_worker_task.
  - destruct (can_run s i); [| done].
    destruct (pool s !! i) as [nd |] eqn:Hnd; [| done].
    by apply whole_batches_worker_task.
  - destruct (can_run s i); [| done].
    destruct (pool s !! i) as [nd |] eqn:Hnd; [| done].
    destruct (outbox nd) as [| r rest] eqn:Hout; [done |].
    destruct Hs as (Htbl & Hshown & Hpool).
    pose proof (proj1 (Forall_lookup _ _) Hpool i nd Hnd) as (Htidy & Hsched & Hrs).
    rewrite Hout in Hrs. apply Forall_cons in Hrs as [Hr Hrest].
    destruct (onmessage_whole r (main s) Hr Htbl Hshown) as [Htbl' Hshown'].
    unfold whole_batches.
    destruct (dispatch_main (Main.onmessage r)
                (set_pool (<[i := {| worker := worker nd; inbox := inbox nd;
                                     outbox := rest |}]> (pool s)) s))
      as [-> ->].
    cbn [main pool set_pool].
    split; [done |]. split; [done |].
    apply Forall_insert; [done |]. by cbn.
  - destruct (Main.progressInterval (main s)); [| done].
    destruct Hs as (Htbl & Hshown & Hpool). unfold whole_batches.
    destruct (dispatch_main Main.tick s) as [-> ->].
    destruct (Main.running (main s)) eqn:Hrun.
    + rewrite MainFacts.tick_running by done. cbn [snd].
      split; [done |]. split; [| done].
      intros n Hn. apply shown_ticked in Hn as [Hn | ->]; [by apply Hshown |].
      by apply reduce_add_whole.
    + by rewrite MainFacts.tick_not_running.
  - destruct Hs as (Htbl & Hshown & Hpool). unfold whole_batches.
    destruct (dispatch_main Main.on_sigint s) as [-> ->].
    rewrite MainFacts.on_sigint_eq. cbn [snd].
    split; [done |]. split; [| done].
    intros n Hn. apply shown_stopped in Hn as [Hn | ->].
    + apply Hshown.
      apply (shown_no_total n (main s) (MainSpec.interrupted (main s))
               [Main.Blank; Main.Stopping]);
        [cbn; by rewrite <- !app_assoc | repeat constructor | exact Hn].
    + by apply reduce_add_whole.
Qed.

Lemma init_whole_batches :
  whole_batches (init v5 targetPrivate hardwareConcurrency).
Proof.
  split; [| split].
  - intros k t. cbn. unfold Js.get. cbn. rewrite JsFacts.fill_props_lookup.
    case_decide; [| done]. intros [= <-]. apply WorkerMore.whole_zero.
  - intros n [H | H]; cbn in H; by apply elem_of_nil in H.
  - cbn [pool init]. apply Forall_fmap, Forall_true. intros i. cbn.
    split; [| split; [| apply Forall_nil_2]].
    + split; [done |]. split; [apply NoDup_nil_2 | apply Forall_nil_2].
    + intros id c Hc. cbn in Hc. done.
Qed.

Lemma run_whole_batches (es : list event) : whole_batches (run' es).
Proof.
  induction es as [| e es IH] using rev_ind.
  - apply init_whole_batches.
  - rewrite SystemFacts.run_snoc. by apply step_whole_batches.
Qed.

Ltac not_printed H :=
  repeat (apply elem_of_cons in H as [H | H]; [discriminate |]);
  by apply elem_of_nil in H.

(** Every event keeps the output in agreement with the [found] flag. *)
Lemma step_verdict (s : state) (e : event) :
  verdict_ok s → verdict_ok (step v5 v4 s e).
Proof.
  intros Hv. unfold step.
  destruct (process s) eqn:Hlive; [| done | done].
  pose proof Hv as Hv'. unfold verdict_ok in Hv'. rewrite Hlive in Hv'.
  destruct Hv' as (Hfound & Hnf & Hnn).
  destruct e as [i | i | i | |].
  - destruct (can_run s i); [| done].
    destruct (pool s !! i) as [nd |]; [| done].
    destruct (inbox nd) as [| m rest]; [done |].
    unfold worker_task. destruct (WorkerTs.step _ _ _ _).
    unfold verdict_ok. cbn. by rewrite Hlive.
  - destruct (can_run s i); [| done].
    destruct (pool s !! i) as [nd |]; [| done].
    unfold worker_task. destruct (WorkerTs.step _ _ _ _).
    unfold verdict_ok. cbn. by rewrite Hlive.
  - destruct (can_run s i); [| done].
    destruct (pool s !! i) as [nd |]; [| done].
    destruct (outbox nd) as [| r rest]; [done |].
    unfold dispatch. cbn [main set_pool pool].
    destruct (decide (Report.type r = "progress")) as [Hp | Hp];
      [| destruct (decide (Report.type r = "found")) as [Hf | Hf]];
      destruct (Js.BigInt (Report.checked r)) as [v |] eqn:Hparse.
    + rewrite (MainFacts.onmessage_progress r v) by done. by unfold verdict_ok.
    + by rewrite MainFacts.onmessage_progress_throw.
    + rewrite (MainFacts.onmessage_found r v) by done.
      unfold verdict_ok. cbn [process main]. left.
      split; [done |]. cbn. split.
      * apply elem_of_app. left. apply elem_of_app. right.
        apply list_elem_of_further, list_elem_of_here.
      * intros H. apply elem_of_app in H as [H | H].
        -- apply elem_of_app in H as [H | H]; [done | not_printed H].
        -- unfold MainSpec.summary_lines in H. cbn in H. not_printed H.
    + by rewrite MainFacts.onmessage_found_throw.
    + rewrite MainFacts.onmessage_other by done. by unfold verdict_ok.
    + rewrite MainFacts.onmessage_other by done. by unfold verdict_ok.
  - destruct (Main.progressInterval (main s)); [| done].
    unfold dispatch.
    destruct (Main.running (main s)) eqn:Hrun.
    + rewrite MainFacts.tick_running by done.
      unfold verdict_ok. cbn. split; [done |].
      split; intros H; apply elem_of_app in H as [H | H];
        first [done | not_printed H].
    + by rewrite MainFacts.tick_not_running.
  - unfold dispatch. rewrite MainFacts.on_sigint_eq.
    unfold verdict_ok. cbn [process main]. right.
    cbn. unfold MainSpec.summary_lines. cbn. rewrite Hfound.
    split; [done |]. split.
    + intros H. apply elem_of_app in H as [H | H];
        [| cbn in H; not_printed H].
      apply elem_of_app in H as [H | H]; [| not_printed H].
      apply elem_of_app in H as [H | H]; [done | not_printed H].
    + apply elem_of_app. right. cbn.
      repeat first [apply list_elem_of_here | apply list_elem_of_further].
Qed.

Lemma run_verdict (es : list event) : verdict_ok (run' es).
Proof.
  induction es as [| e es IH] using rev_ind.
  - unfold verdict_ok. cbn. split; [done |].
    split; intros H; by apply elem_of_nil in H.
  - rewrite SystemFacts.run_snoc. by apply step_verdict.
Qed.

End Facts.
End SystemMore.

(* ===================================================================== *)
(** ** Further properties *)
(* ===================================================================== *)

Module Extras.
Import System.

Lemma tidy_idle : WorkerSpec2.tidy WorkerTs.idle.
Proof.
  split; [done |]. split; [apply NoDup_nil_2 | apply Forall_nil_2].
Qed.

(** X1. Whatever start messages and timer callbacks a worker goes through,
    the counters of its batch loops add up to the number of candidates it
    has drawn: every draw is counted once, by the loop that made it. *)
Theorem X1_every_draw_is_counted_once
    (v5 : string → string → string) (v4 : N → string)
    (es : list WorkerTs.event) :
  WorkerSpec2.sum_checked
    (WorkerTs.closures (WorkerTs.run v5 v4 es WorkerTs.idle).1)
  = Z.of_N (WorkerTs.draws (WorkerTs.run v5 v4 es WorkerTs.idle).1).
Proof.
  by destruct (WorkerMore.run_tidy v5 v4 es WorkerTs.idle tidy_idle) as (H & _).
Qed.

(** X2. Whatever start messages and timer callbacks a worker goes through,
    a batch loop never has two batches scheduled at once, and every
    scheduled batch belongs to a loop that exists. *)
Theorem X2_one_pending_batch_per_loop
    (v5 : string → string → string) (v4 : N → string)
    (es : list WorkerTs.event) :
  NoDup (WorkerTs.timers (WorkerTs.run v5 v4 es WorkerTs.idle).1) ∧
  ∀ id : nat,
    id ∈ WorkerTs.timers (WorkerTs.run v5 v4 es WorkerTs.idle).1 →
    is_Some (WorkerTs.closures (WorkerTs.run v5 v4 es WorkerTs.idle).1 !! id).
Proof.
  destruct (WorkerMore.run_tidy v5 v4 es WorkerTs.idle tidy_idle)
    as (_ & Hnd & Hall).
  split; [done |]. intros id Hid.
  rewrite Forall_forall in Hall. by apply lookup_lt_is_Some, Hall.
Qed.

(** X3. Each task of a worker posts at most one report: handling a start
    message posts exactly one, a timer callback posts exactly one when a
    batch is scheduled and nothing otherwise. *)
Theorem X3_one_report_per_batch
    (v5 : string → string → string) (v4 : N → string)
    (es : list WorkerTs.event) (e : WorkerTs.event) :
  length (WorkerTs.step v5 v4 e (WorkerTs.run v5 v4 es WorkerTs.idle).1).2
  = match e with
    | WorkerTs.Message _ => 1%nat
    | WorkerTs.Timeout =>
        match WorkerTs.timers (WorkerTs.run v5 v4 es WorkerTs.idle).1 with
        | [] => 0%nat
        | _ :: _ => 1%nat
        end
    end.
Proof.
  destruct (WorkerMore.run_tidy v5 v4 es WorkerTs.idle tidy_idle)
    as (_ & _ & Hall).
  destruct (WorkerTs.run v5 v4 es WorkerTs.idle) as [w posted]. cbn [fst] in *.
  destruct e as [m |]; cbn [WorkerTs.step].
  - unfold WorkerTs.onmessage. apply WorkerMore.checkBatch_posts_one. cbn.
    rewrite lookup_app_r by done. rewrite Nat.sub_diag. by eexists.
  - destruct (WorkerTs.timers w) as [| id rest]; [done |].
    apply Forall_cons in Hall as [Hlt _].
    apply WorkerMore.checkBatch_posts_one. cbn. by apply lookup_lt_is_Some.
Qed.

(** X4. The counts carried by the successive reports of a worker, read
    back by [BigInt], are positive and strictly increasing. *)
Theorem X4_reported_counts_increase
    (v5 : string → string → string) (v4 : N → string)
    (m : Start.msg) (k : nat) :
  WorkerSpec2.increasing 0 (WorkerTs.session v5 v4 m k).2.
Proof.
  pose proof (WorkerFacts.session_spec v5 v4 m k) as Hs.
  destruct (WorkerTs.session v5 v4 m k) as [w posted]. cbn [fst snd] in *.
  pose proof WorkerFacts.BATCH_SIZE_eq as HB.
  inversion Hs as [c d Ht Hw Hc Hd Hno | c q d Hq Ht Hw Hc Hd Hno Hv];
    subst w posted.
  - rewrite <- (app_nil_r (WorkerSpec.progress_upto _ _)).
    apply (WorkerMore.increasing_progress (Start.workerId m) (S k) 0 []). done.
  - apply (WorkerMore.increasing_progress (Start.workerId m) q 0).
    exists (Z.of_N d). cbn.
    split; [apply JsFacts.BigInt_toString |]. split; [| done].
    rewrite HB in *. lia.
Qed.

(** X5. A worker overlooks no candidate: if it has posted progress reports
    only after its start message and [k] timer callbacks, then none of its
    first [(k + 1) * 100,000] draws derives to the target. *)
Theorem X5_progress_only_means_no_match_so_far
    (v5 : string → string → string) (v4 : N → string)
    (m : Start.msg) (k : nat) :
  Forall (λ r, Report.type r = "progress") (WorkerTs.session v5 v4 m k).2 →
  WorkerSpec.no_match v5 v4 (Start.targetPublic m) 0 (N.of_nat (S k) * 100000).
Proof.
  intros Hall.
  pose proof (WorkerFacts.session_spec v5 v4 m k) as Hs.
  destruct (WorkerTs.session v5 v4 m k) as [w posted]. cbn [fst snd] in *.
  inversion Hs as [c d Ht Hw Hc Hd Hno | c q d Hq Ht Hw Hc Hd Hno Hv];
    subst w posted.
  - by subst d.
  - apply Forall_app in Hall as [_ Hf].
    rewrite Forall_singleton in Hf. cbn in Hf. discriminate.
Qed.

(** Worker 1 of the sample has posted two progress reports after one
    callback: none of its first 200000 draws matches. *)
Lemma X5_sample :
  WorkerSpec.no_match Sample.v5 (Sample.v4 1) (Sample.v5 Sample.secret Sample.secret)
    0 200000.
Proof.
  apply (X5_progress_only_means_no_match_so_far Sample.v5 (Sample.v4 1)
           (Sample.start 1) 1).
  vm_compute. repeat constructor.
Defined.

(** X6. Along every run the table keeps the shape it was given: its length
    stays the number of workers, every index below it holds an entry, and
    every report waiting in a queue names the worker that posted it, so that
    a write never lands outside the table. *)
Theorem X6_table_keeps_its_shape
    (v5 : string → string → string) (v4 : nat → N → string)
    (targetPrivate : string) (hardwareConcurrency : nat) (es : list event) :
  Js.len (Main.workerProgress
            (main (run v5 v4 targetPrivate hardwareConcurrency es)))
  = Z.of_nat (WORKER_COUNT hardwareConcurrency) ∧
  length (pool (run v5 v4 targetPrivate hardwareConcurrency es))
  = WORKER_COUNT hardwareConcurrency ∧
  ∀ i : nat, (i < WORKER_COUNT hardwareConcurrency)%nat →
    is_Some (Js.get (Main.workerProgress
                       (main (run v5 v4 targetPrivate hardwareConcurrency es)))
               (Z.of_nat i)) ∧
    ∃ nd, pool (run v5 v4 targetPrivate hardwareConcurrency es) !! i = Some nd ∧
          Forall (λ r, Report.workerId r = Z.of_nat i) (outbox nd).
Proof.
  destruct (SystemFacts.run_inv v5 v4 targetPrivate hardwareConcurrency es)
    as ((Hlen & Hpl & Hall) & _ & _).
  split; [done |]. split; [done |]. intros i Hi.
  destruct (lookup_lt_is_Some_2
              (pool (run v5 v4 targetPrivate hardwareConcurrency es)) i)
    as [nd Hnd]; [lia |].
  destruct (Hall i nd Hnd) as (t & Ht & Hok).
  split; [by exists t |]. exists nd. split; [done |].
  by destruct (SystemMore.node_entry_le v5 targetPrivate i t nd Hok)
    as (_ & Hf & _).
Qed.

(** X7. The main thread never shows more than was checked: along every
    run each entry of the table is at most the counter of its worker, and
    the total is at most the number of candidates drawn by all the workers
    together. *)
Theorem X7_total_never_exceeds_the_draws
    (v5 : string → string → string) (v4 : nat → N → string)
    (targetPrivate : string) (hardwareConcurrency : nat) (es : list event) :
  table_sum (run v5 v4 targetPrivate hardwareConcurrency es)
  ≤ SystemSpec2.total_draws (pool (run v5 v4 targetPrivate hardwareConcurrency es)) ∧
  ∀ (i : nat) (nd : node),
    pool (run v5 v4 targetPrivate hardwareConcurrency es) !! i = Some nd →
    ∃ t, Js.get (Main.workerProgress
                   (main (run v5 v4 targetPrivate hardwareConcurrency es)))
           (Z.of_nat i) = Some t ∧
         t ≤ Z.of_N (WorkerTs.draws (worker nd)).
Proof.
  destruct (SystemFacts.run_inv v5 v4 targetPrivate hardwareConcurrency es)
    as ((Hlen & Hpl & Hall) & _ & _).
  assert (Hentry : ∀ (i : nat) (nd : node),
    pool (run v5 v4 targetPrivate hardwareConcurrency es) !! i = Some nd →
    ∃ t, Js.get (Main.workerProgress
                   (main (run v5 v4 targetPrivate hardwareConcurrency es)))
           (Z.of_nat i) = Some t ∧
         t ≤ Z.of_N (WorkerTs.draws (worker nd))).
  { intros i nd Hnd. destruct (Hall i nd Hnd) as (t & Ht & Hok).
    exists t. split; [done |].
    by destruct (SystemMore.node_entry_le v5 targetPrivate i t nd Hok). }
  split; [| exact Hentry].
  unfold table_sum, Js.reduce_add. rewrite Hlen, <- Hpl.
  etrans; [apply (SystemMore.reduce_le_total_draws _
                    (pool (run v5 v4 targetPrivate hardwareConcurrency es)));
           [done | exact Hentry] |].
  by rewrite take_ge.
Qed.

(** X8. Along every run each worker has either its start message still
    waiting or exactly one batch loop open, never both and never a second
    loop, and it has at most one batch scheduled. *)
Theorem X8_one_loop_per_worker
    (v5 : string → string → string) (v4 : nat → N → string)
    (targetPrivate : string) (hardwareConcurrency : nat) (es : list event) :
  Forall (λ nd,
            (length (inbox nd) + length (WorkerTs.closures (worker nd)) = 1)%nat ∧
            (length (WorkerTs.timers (worker nd))
             ≤ length (WorkerTs.closures (worker nd)))%nat)
    (pool (run v5 v4 targetPrivate hardwareConcurrency es)).
Proof.
  destruct (SystemFacts.run_inv v5 v4 targetPrivate hardwareConcurrency es)
    as ((_ & _ & Hall) & _ & _).
  apply Forall_lookup. intros i nd Hnd.
  destruct (Hall i nd Hnd) as (t & _ & Hok).
  by destruct (SystemMore.node_entry_le v5 targetPrivate i t nd Hok)
    as (_ & _ & H1 & H2).
Qed.

(** X9. The flags of the main thread flip at exit and only then: along
    every run the process lives exactly when [running] is true and exactly
    when the interval is armed; while it lives [found] is false and no
    worker has been terminated, and once it is over every worker has. *)
Theorem X9_flags_flip_at_exit
    (v5 : string → string → string) (v4 : nat → N → string)
    (targetPrivate : string) (hardwareConcurrency : nat) (es : list event) :
  let s := run v5 v4 targetPrivate hardwareConcurrency es in
  (process s = Live ↔ Main.running (main s) = true) ∧
  (process s = Live ↔ Main.progressInterval (main s) = true) ∧
  (process s = Live →
     Main.found (main s) = false ∧
     Forall (λ h, Main.terminated h = false) (Main.workers (main s))) ∧
  (process s ≠ Live →
     Forall (λ h, Main.terminated h = true) (Main.workers (main s))).
Proof.
  intros s. subst s.
  destruct (SystemFacts.run_inv v5 v4 targetPrivate hardwareConcurrency es)
    as (_ & _ & Hstat).
  unfold SystemSpec.status_ok in Hstat.
  destruct (process (run v5 v4 targetPrivate hardwareConcurrency es))
    as [| code | err]; [| | done].
  - destruct Hstat as (Hrun & Hfound & Hint & Hws & _).
    split; [done |]. split; [done |]. split; [| done].
    intros _. split; [done |]. rewrite Hws. cbn.
    apply Forall_fmap, Forall_true. done.
  - destruct Hstat as (_ & Hrun & Hint & Hws & _).
    split; [split; [done | congruence] |].
    split; [split; [done | congruence] |].
    split; [done | by intros _].
Qed.

(** X10. A match ends the run with the right answer.  If the first draw
    of worker [i] that derives to the target is draw [j], made in its batch
    [q + 1], then starting that worker, letting it run [q] more batches and
    handing its reports to the main thread ends the process with code 0 and
    [found] set, having printed the matching candidate, the count [j + 1]
    and a closing block whose total is [q * 100,000], without the not-found
    line. *)
Theorem X10_a_match_stops_the_run_with_the_secret
    (v5 : string → string → string) (v4 : nat → N → string)
    (targetPrivate : string) (hardwareConcurrency : nat)
    (i q : nat) (j : N) :
  (i < WORKER_COUNT hardwareConcurrency)%nat →
  (N.of_nat q * 100000 ≤ j < N.of_nat (S q) * 100000)%N →
  WorkerSpec.no_match v5 (v4 i) (targetPublic v5 targetPrivate) 0 j →
  v5 (v4 i j) (v4 i j) = targetPublic v5 targetPrivate →
  let s := run v5 v4 targetPrivate hardwareConcurrency
             (SystemSpec2.found_schedule i q) in
  process s = Exited 0 ∧
  Main.found (main s) = true ∧
  Main.stdout (main s)
  = [Main.Blank; Main.FoundIt; Main.PrivateUuid (Some (v4 i j));
     Main.Checked (Z.of_N j + 1); Main.Blank; Main.Blank; Main.FinalStatistics;
     Main.TotalChecked (Z.of_nat q * 100000); Main.TotalTime; Main.AvgSpeed;
     Main.Blank].
Proof.
  intros Hi Hj Hbefore Hat s. subst s.
  set (m := {| Start.targetPublic := targetPublic v5 targetPrivate;
               Start.workerId := Z.of_nat i |}).
  destruct (WorkerFacts.session_finds v5 (v4 i) m q q j)
    as (Hposted & _ & _); [done | done | done | done |].
  unfold SystemSpec2.found_schedule.
  rewrite app_comm_cons, SystemFacts.run_append, SystemMore.worker_phase by done.
  fold m. rewrite Hposted.
  assert (Hlen : length (WorkerSpec.progress_upto (Start.workerId m) q) = q)
    by (unfold WorkerSpec.progress_upto; by rewrite length_fmap, length_seq).
  replace (repeat (Deliver i) (S q))
    with (repeat (Deliver i) q ++ [Deliver i])
    by (symmetry; apply repeat_cons).
  rewrite foldl_app.
  rewrite (SystemMore.delivery_phase v5 v4 targetPrivate hardwareConcurrency
             i _ _ q q) by (try done; by rewrite take_app_length').
  rewrite drop_app_length' by done.
  cbn [foldl].
  destruct (SystemMore.table_after_facts (WORKER_COUNT hardwareConcurrency) i q Hi)
    as (_ & _ & Hsum).
  set (r := {| Report.type := "found"; Report.workerId := Start.workerId m;
               Report.private := Some (v4 i j);
               Report.checked := Js.bigint_toString (Z.of_N j + 1) |}).
  rewrite (SystemMore.deliver_found v5 v4 _ i
             {| worker := (WorkerTs.session v5 (v4 i) m q).1; inbox := [];
                outbox := [r] |}
             r [] (Z.of_N j + 1)).
  - cbn [process main]. split; [done |]. split; [done |].
    cbn. unfold MainSpec.summary_lines. cbn. by rewrite Hsum.
  - done.
  - unfold can_run. cbn [process main].
    change (Main.workers (Main.set_workerProgress
                            (SystemSpec2.table_after _ i q) (Main.started _)))
      with (Main.workers (Main.started (WORKER_COUNT hardwareConcurrency))).
    by rewrite SystemMore.started_handle.
  - cbn [pool]. apply list_lookup_insert_eq. by rewrite length_fmap, length_seq.
  - reflexivity.
  - reflexivity.
  - subst r. cbn [Report.checked]. apply JsFacts.BigInt_toString.
Qed.

(** On the sample, worker 0 finds the secret in its third batch. *)
Lemma X10_sample :
  process (Sample.system (SystemSpec2.found_schedule 0 2)) = Exited 0 ∧
  Main.found (main (Sample.system (SystemSpec2.found_schedule 0 2))) = true ∧
  Main.stdout (main (Sample.system (SystemSpec2.found_schedule 0 2)))
  = [Main.Blank; Main.FoundIt; Main.PrivateUuid (Some Sample.secret);
     Main.Checked 250001; Main.Blank; Main.Blank; Main.FinalStatistics;
     Main.TotalChecked 200000; Main.TotalTime; Main.AvgSpeed; Main.Blank].
Proof.
  apply (X10_a_match_stops_the_run_with_the_secret Sample.v5 Sample.v4
           Sample.secret 2 0 2 250000).
  - cbn. lia.
  - lia.
  - intros n Hn. unfold Sample.v4. cbn [Nat.eqb andb].
    destruct (N.eqb_spec n 250000); [lia | discriminate].
  - reflexivity.
Defined.

(** X11. [runBenchmark] starts as many workers as the host reports
    threads, or 8 when it reports none, and so at least one.  Worker [i]
    is sent the shared target and its own index as [workerId], its handle is
    live, and the table holds a zero for it and nothing beyond the last
    worker; the total starts at 0. *)
Theorem X11_one_worker_per_thread_each_with_its_entry
    (v5 : string → string → string) (targetPrivate : string)
    (hardwareConcurrency : nat) :
  let n := WORKER_COUNT hardwareConcurrency in
  let s := init v5 targetPrivate hardwareConcurrency in
  (1 ≤ n)%nat ∧
  n = (if Nat.eqb hardwareConcurrency 0 then 8 else hardwareConcurrency)%nat ∧
  length (pool s) = n ∧
  length (Main.workers (main s)) = n ∧
  (∀ i : nat, (i < n)%nat →
     pool s !! i
     = Some {| worker := WorkerTs.idle;
               inbox := [{| Start.targetPublic := v5 targetPrivate targetPrivate;
                            Start.workerId := Z.of_nat i |}];
               outbox := [] |} ∧
     Main.workers (main s) !! i
     = Some {| Main.node := i; Main.terminated := false |} ∧
     Js.get (Main.workerProgress (main s)) (Z.of_nat i) = Some 0) ∧
  (∀ j : Z, ¬ (0 ≤ j < Z.of_nat n) →
     Js.get (Main.workerProgress (main s)) j = None) ∧
  table_sum s = 0.
Proof.
  intros n s. subst n s.
  split; [destruct hardwareConcurrency; cbn; lia |].
  split; [by destruct hardwareConcurrency |].
  split; [cbn; by rewrite length_fmap, length_seq |].
  split; [cbn; by rewrite length_fmap, length_seq |].
  split; [| split].
  - intros i Hi. split; [| split].
    + cbn [pool init]. by rewrite SystemMore.pool0_lookup.
    + cbn [main init]. by apply SystemMore.started_handle.
    + cbn. apply JsFacts.get_fill. lia.
  - intros j Hj. cbn. unfold Js.get. cbn.
    rewrite JsFacts.fill_props_lookup. by case_decide.
  - apply SystemMore.reduce_add_fill.
Qed.

(** X12. A report whose type is not ['found'] never runs [stopAll] and
    never touches the flags or the output: [found], [running], the interval,
    the workers, the stored total and the output stay as they were.  The
    handler returns normally whenever [BigInt] reads the count or the type is
    not ['progress'] either; the one other outcome is a progress report whose
    count [BigInt] rejects, on which the handler throws a [SyntaxError]
    before writing anything, which ends the process abnormally.  In a run
    this does not happen: every report in a queue carries a count that
    [BigInt] reads, and no run crashes. *)
Theorem X12_other_reports_never_stop_or_print
    (v5 : string → string → string) (v4 : nat → N → string)
    (targetPrivate : string) (hardwareConcurrency : nat)
    (r : Report.msg) (s : Main.state) :
  Report.type r ≠ "found" →
  (∀ code : Z, (Main.onmessage r s).1 ≠ Main.Exit code) ∧
  Main.found (Main.onmessage r s).2 = Main.found s ∧
  Main.running (Main.onmessage r s).2 = Main.running s ∧
  Main.progressInterval (Main.onmessage r s).2 = Main.progressInterval s ∧
  Main.workers (Main.onmessage r s).2 = Main.workers s ∧
  Main.totalChecked (Main.onmessage r s).2 = Main.totalChecked s ∧
  Main.stdout (Main.onmessage r s).2 = Main.stdout s ∧
  (is_Some (Js.BigInt (Report.checked r)) →
     (Main.onmessage r s).1 = Main.Return tt) ∧
  (Report.type r ≠ "progress" → Main.onmessage r s = (Main.Return tt, s)) ∧
  ((Main.onmessage r s).1 = Main.Return tt ∨
   Report.type r = "progress" ∧
   Js.BigInt (Report.checked r) = None ∧
   Main.onmessage r s = (Main.Throw "SyntaxError", s)) ∧
  (∀ (es : list event) (i : nat) (nd : node) (r' : Report.msg),
     pool (run v5 v4 targetPrivate hardwareConcurrency es) !! i = Some nd →
     r' ∈ outbox nd → is_Some (Js.BigInt (Report.checked r'))) ∧
  (∀ (es : list event) (err : string),
     process (run v5 v4 targetPrivate hardwareConcurrency es) ≠ Crashed err).
Proof.
  intros Hf.
  assert (Hruns :
    (∀ (es : list event) (i : nat) (nd : node) (r' : Report.msg),
       pool (run v5 v4 targetPrivate hardwareConcurrency es) !! i = Some nd →
       r' ∈ outbox nd → is_Some (Js.BigInt (Report.checked r'))) ∧
    (∀ (es : list event) (err : string),
       process (run v5 v4 targetPrivate hardwareConcurrency es) ≠ Crashed err)).
  { split.
    - intros es i nd r' Hnd Hr'.
      destruct (SystemFacts.run_inv v5 v4 targetPrivate hardwareConcurrency es)
        as ((_ & _ & Hall) & _ & _).
      destruct (Hall i nd Hnd) as (t & _ & Hok).
      destruct Hok as [Ht0 | c ts d rs Htp Hwid Hc Hts Hch]; cbn in Hr'.
      + by apply elem_of_nil in Hr'.
      + destruct (Claims.chain_elem _ _ _ _ _ _ _ Hch Hr') as (n & _ & Hck & _).
        exists n. rewrite Hck. apply JsFacts.BigInt_toString.
    - intros es err Hcr.
      destruct (SystemFacts.run_inv v5 v4 targetPrivate hardwareConcurrency es)
        as (_ & _ & Hstat).
      unfold SystemSpec.status_ok in Hstat. by rewrite Hcr in Hstat. }
  destruct Hruns as [Hreadable Hnocrash].
  destruct (decide (Report.type r = "progress")) as [Hp | Hp].
  - destruct (Js.BigInt (Report.checked r)) as [v |] eqn:Hv.
    + rewrite (MainFacts.onmessage_progress r v) by done. cbn.
      repeat split; first [done | by left].
    + rewrite MainFacts.onmessage_progress_throw by done. cbn.
      repeat split; first [done | by intros [v Hv'] | by right].
  - rewrite MainFacts.onmessage_other by done. cbn.
    repeat split; first [done | by left].
Qed.

(** A progress report handled by a freshly started main thread. *)
Lemma X12_sample :
  Main.stdout
    (Main.onmessage
       {| Report.type := "progress"; Report.workerId := 1;
          Report.private := None; Report.checked := "100000" |}
       (Main.started 2)).2 = [] ∧
  (Main.onmessage
     {| Report.type := "progress"; Report.workerId := 1;
        Report.private := None; Report.checked := "100000" |}
     (Main.started 2)).1 = Main.Return tt.
Proof.
  destruct (X12_other_reports_never_stop_or_print Sample.v5 Sample.v4
              Sample.secret 2
              {| Report.type := "progress"; Report.workerId := 1;
                 Report.private := None; Report.checked := "100000" |}
              (Main.started 2))
    as (_ & _ & _ & _ & _ & _ & Hout & Hret & _).
  - cbn. discriminate.
  - split; [exact Hout |]. apply Hret. by eexists.
Defined.

Lemma bigint_div_pos (a b : Z) :
  0 ≤ a → 0 < b → Estimate.bigint_div a b = Some (a / b).
Proof.
  intros Ha Hb. unfold Estimate.bigint_div.
  destruct (Z.eqb_spec b 0); [lia |].
  by rewrite Z.quot_div_nonneg.
Qed.

(** X13. The estimate of the banner never divides by zero, whatever the
    host reports, the worker count being at least one.  The two truncating
    divisions amount to one: the years shown are 2^122 divided by the
    checks made in a year, [500000 * WORKER_COUNT * 31536000], rounded down;
    more workers never give more years. *)
Theorem X13_estimate_is_defined_and_one_division
    (hardwareConcurrency : nat) :
  Estimate.estimatedSeconds hardwareConcurrency
  = Some (2 ^ 122 / (500000 * Z.of_nat (WORKER_COUNT hardwareConcurrency))) ∧
  Estimate.estimatedYears hardwareConcurrency
  = Some (2 ^ 122
          / (500000 * Z.of_nat (WORKER_COUNT hardwareConcurrency) * 31536000)) ∧
  ∀ more : nat,
    (WORKER_COUNT hardwareConcurrency ≤ WORKER_COUNT more)%nat →
    2 ^ 122 / (500000 * Z.of_nat (WORKER_COUNT more) * 31536000)
    ≤ 2 ^ 122 / (500000 * Z.of_nat (WORKER_COUNT hardwareConcurrency) * 31536000).
Proof.
  assert (Hn : (1 ≤ WORKER_COUNT hardwareConcurrency)%nat)
    by (destruct hardwareConcurrency; cbn; lia).
  assert (Hsec : Estimate.estimatedSeconds hardwareConcurrency
                 = Some (2 ^ 122
                         / (500000 * Z.of_nat (WORKER_COUNT hardwareConcurrency)))).
  { unfold Estimate.estimatedSeconds, Estimate.estimatedSpeed,
      Estimate.totalCombinations.
    apply bigint_div_pos; lia. }
  split; [exact Hsec |]. split.
  - unfold Estimate.estimatedYears. rewrite Hsec. cbn [mbind option_bind].
    change (60 * 60 * 24 * 365) with 31536000.
    rewrite bigint_div_pos; [| apply Z.div_pos; lia | lia].
    f_equal. apply Z.div_div; lia.
  - intros more Hmore. apply Z.div_le_compat_l; lia.
Qed.

(** X14. The integer behind the percentage of the status line is the
    total times 10000 over 2^122, rounded down: it is 0 exactly as long as
    fewer than 2^122 / 10000 candidates have been checked, and at most 10000
    as long as the total does not exceed 2^122. *)
Theorem X14_progress_fraction_bounds (totalChecked : Z) :
  0 ≤ totalChecked →
  Estimate.progressPct_scaled totalChecked
  = Some (totalChecked * 10000 / 2 ^ 122) ∧
  (Estimate.progressPct_scaled totalChecked = Some 0
   ↔ totalChecked * 10000 < 2 ^ 122) ∧
  (totalChecked ≤ 2 ^ 122 → totalChecked * 10000 / 2 ^ 122 ≤ 10000).
Proof.
  intros H0.
  assert (Heq : Estimate.progressPct_scaled totalChecked
                = Some (totalChecked * 10000 / 2 ^ 122))
    by (unfold Estimate.progressPct_scaled; apply bigint_div_pos; lia).
  split; [exact Heq |]. split.
  - rewrite Heq. split.
    + intros H. injection H as H.
      apply Z.div_small_iff in H; lia.
    + intros H. f_equal. apply Z.div_small. lia.
  - intros Hle. apply Z.div_le_upper_bound; lia.
Qed.

(** A year of checking at a billion candidates a second still shows 0. *)
Lemma X14_sample :
  Estimate.progressPct_scaled 31536000000000000 = Some 0.
Proof.
  destruct (X14_progress_fraction_bounds 31536000000000000) as (_ & Hz & _).
  - lia.
  - apply Hz. lia.
Defined.

(** X15. The main thread only ever stores and shows whole batches: along
    every run each entry of the table, their sum, every total printed on the
    status line or in the closing block, and the count of every progress
    report on its way are multiples of 100,000.  The candidates a worker
    checked in the batch where it found the match are never part of them. *)
Theorem X15_totals_are_whole_batches
    (v5 : string → string → string) (v4 : nat → N → string)
    (targetPrivate : string) (hardwareConcurrency : nat) (es : list event) :
  let s := run v5 v4 targetPrivate hardwareConcurrency es in
  (∀ k t : Z, Js.get (Main.workerProgress (main s)) k = Some t →
     ∃ a : nat, t = Z.of_nat a * 100000) ∧
  (∃ a : nat, table_sum s = Z.of_nat a * 100000) ∧
  (∀ n : Z,
     Main.Status n ∈ Main.stdout (main s) ∨
     Main.TotalChecked n ∈ Main.stdout (main s) →
     ∃ a : nat, n = Z.of_nat a * 100000) ∧
  Forall (λ nd,
            Forall (λ r, Report.type r = "progress" →
                         ∃ a : nat, Report.checked r
                                    = Js.bigint_toString (Z.of_nat a * 100000))
              (outbox nd))
    (pool s).
Proof.
  intros s. subst s.
  destruct (SystemMore.run_whole_batches v5 v4 targetPrivate
              hardwareConcurrency es) as (Htbl & Hshown & Hpool).
  split; [exact Htbl |]. split; [| split].
  - by apply SystemMore.reduce_add_whole.
  - exact Hshown.
  - eapply Forall_impl; [exact Hpool |]. cbn. by intros nd (_ & _ & H).
Qed.

(** The closing block of the sample run shows three whole batches. *)
Lemma X15_sample : ∃ a : nat, 300000 = Z.of_nat a * 100000.
Proof.
  destruct (X15_totals_are_whole_batches Sample.v5 Sample.v4 Sample.secret 2
              Sample.hit) as (_ & _ & Hshown & _).
  apply Hshown. right. vm_compute.
  repeat first [apply list_elem_of_here | apply list_elem_of_further].
Defined.

(** X16. What is printed agrees with the [found] flag.  Along every run,
    while the process lives neither the match banner nor the not-found line
    has been printed; once it is over exactly one of them has: the banner
    when [found] is true, the not-found line when it is false. *)
Theorem X16_output_agrees_with_found
    (v5 : string → string → string) (v4 : nat → N → string)
    (targetPrivate : string) (hardwareConcurrency : nat) (es : list event) :
  let s := run v5 v4 targetPrivate hardwareConcurrency es in
  (process s = Live →
     (Main.FoundIt ∉ Main.stdout (main s)) ∧
     (Main.NotFound ∉ Main.stdout (main s))) ∧
  (process s ≠ Live →
     (Main.found (main s) = true ↔ Main.FoundIt ∈ Main.stdout (main s)) ∧
     (Main.found (main s) = false ↔ Main.NotFound ∈ Main.stdout (main s)) ∧
     ¬ (Main.FoundIt ∈ Main.stdout (main s) ∧
        Main.NotFound ∈ Main.stdout (main s))).
Proof.
  intros s. subst s.
  pose proof (SystemMore.run_verdict v5 v4 targetPrivate hardwareConcurrency es)
    as Hv.
  destruct (SystemFacts.run_inv v5 v4 targetPrivate hardwareConcurrency es)
    as (_ & _ & Hstat).
  unfold SystemSpec2.verdict_ok in Hv. unfold SystemSpec.status_ok in Hstat.
  destruct (process (run v5 v4 targetPrivate hardwareConcurrency es))
    as [| code | err]; [| | done].
  - split; [| done]. intros _. by destruct Hv as (_ & H1 & H2).
  - split; [done |]. intros _.
    destruct Hv as [(Hf & Hin & Hnot) | (Hf & Hnot & Hin)]; rewrite Hf.
    + split; [done |]. split; [split; [done | by intros] | by intros [_ ?]].
    + split; [split; [done | by intros] |]. split; [done | by intros [? _]].
Qed.

End Extras.
